(** * dm_collector_c: log-mask command generation and packet dispatch

    A shallow embedding of [dm_collector_c/dm_collector_c.cpp], the Python
    extension module that builds DIAG log-configuration commands and
    dispatches deframed packets to the log-packet decoder.

    The headers [consts.h], [hdlc.h], [log_config.h] and [log_packet.h] are
    not part of the embedded sources.  What this file needs from them
    (the catalogue, [get_equip_id], [encode_log_config],
    [encode_hdlc_frame], [get_next_frame], the two packet classifiers and
    [decode_log_packet]) is gathered in two interfaces, [LogConfig] and
    [PacketSource], so every result holds for any implementation of those
    headers. *)

From Stdlib Require Import String.
From Stdlib Require Import ZArith List Bool Lia Arith.
From Stdlib Require Import Sorting.Sorted Sorting.Permutation.
Import ListNotations.

Local Open Scope Z_scope.

(** ** Data *)

(** [typedef std::vector<int> IdVector;] *)
Definition IdVector := list Z.

(** A byte is kept as its unsigned octet value, [0 .. 255]. *)
Definition byte := Z.
Definition bytes := list byte.

(** [typedef std::pair<char *, int> BinaryBuffer;]  [first = None] is the
    null pointer. *)
Definition BinaryBuffer := (option bytes * Z)%type.

(** The operations of [enum LogConfigOp] that the module uses. *)
Inductive LogConfigOp := DISABLE | SET_MASK | DEBUG_LTE_ML1 | DEBUG_WCDMA_L1.

(** ** [std::sort] and [std::unique] on an [IdVector] *)

(** On [int]s the result of [std::sort] is determined by its contract (an
    ascending permutation), so an insertion sort stands for it. *)
Fixpoint insert_sorted (x : Z) (l : IdVector) : IdVector :=
  match l with
  | [] => [x]
  | y :: l' => if x <=? y then x :: l else y :: insert_sorted x l'
  end.

Fixpoint sort (l : IdVector) : IdVector :=
  match l with
  | [] => []
  | x :: l' => insert_sorted x (sort l')
  end.

(** [std::unique] followed by the [resize]: of each group of consecutive
    equal elements only the first is kept. *)
Fixpoint unique (l : IdVector) : IdVector :=
  match l with
  | [] => []
  | x :: l' =>
      match l' with
      | [] => [x]
      | y :: _ => if x =? y then unique l' else x :: unique l'
      end
  end.

(** [IdVector(v.begin() + i, v.begin() + j)] *)
Definition slice (v : IdVector) (i j : nat) : IdVector :=
  firstn (j - i) (skipn i v).

(** ** What [consts.h], [hdlc.h] and [log_config.h] provide *)

Class LogConfig := {
  (** [int get_equip_id(int type_id)] *)
  get_equip_id : Z -> Z;
  (** The ids that the table [LogPacketTypeID_To_Name] lists under a name,
      in table order. *)
  catalog_ids : string -> IdVector;
  (** The constant [Modem_debug_message]. *)
  Modem_debug_message : Z;
  (** [BinaryBuffer encode_log_config(LogConfigOp op, const IdVector&)] *)
  encode_log_config : LogConfigOp -> IdVector -> BinaryBuffer;
  (** [std::string encode_hdlc_frame(const char *b, int length)] *)
  encode_hdlc_frame : bytes -> Z -> bytes
}.

Section Bucketing.

Context {LC : LogConfig}.

(** The [for] loop of [sort_type_ids] (lines 87-94), run over the
    indices [js]; the state is [(i, last_equip_id, out_vectors)]. *)
Fixpoint bucket_loop (v : IdVector) (js : list nat)
         (i : nat) (last_equip_id : Z) (out_vectors : list IdVector)
  : nat * Z * list IdVector :=
  match js with
  | [] => (i, last_equip_id, out_vectors)
  | j :: js' =>
      let e := get_equip_id (nth j v 0) in
      if negb (Nat.eqb j 0) && negb (last_equip_id =? e)
      then bucket_loop v js' j e (out_vectors ++ [slice v i j])
      else bucket_loop v js' i e out_vectors
  end.

(** [sort_type_ids]: both of its reference arguments are results, the
    sorted and deduplicated [type_ids] and the buckets [out_vectors]. *)
Definition sort_type_ids (type_ids : IdVector) : IdVector * list IdVector :=
  let v := unique (sort type_ids) in
  let '(i, _, out_vectors) := bucket_loop v (seq 0 (length v)) 0%nat (-1) [] in
  let j := length v in
  (v, if negb (Nat.eqb i j) then out_vectors ++ [slice v i j] else out_vectors).

(** *** A structural description of the buckets

    [close cur rest] is what the loop still produces when [cur] is the
    bucket being filled and [rest] the ids not yet visited. *)
Fixpoint close (cur rest : IdVector) : list IdVector :=
  match rest with
  | [] => [cur]
  | x :: rest' =>
      if get_equip_id (last cur 0) =? get_equip_id x
      then close (cur ++ [x]) rest'
      else cur :: close [x] rest'
  end.

Definition buckets (v : IdVector) : list IdVector :=
  match v with
  | [] => []
  | x :: rest => close [x] rest
  end.

(** All ids of a bucket have one equipment id. *)
Definition uniform (r : IdVector) : Prop :=
  forall x y, In x r -> In y r -> get_equip_id x = get_equip_id y.

(** Consecutive buckets meet at a change of equipment id. *)
Fixpoint breaks_at_changes (rs : list IdVector) : Prop :=
  match rs with
  | r1 :: ((r2 :: _) as rs') =>
      get_equip_id (last r1 0) <> get_equip_id (hd 0 r2) /\ breaks_at_changes rs'
  | _ => True
  end.

End Bucketing.

(** ** Python objects at the module boundary *)

(** The object handed in as [port] or [file].  Only what the module can
    observe of it is kept: whether it has the attributes [read] and
    [write]; whether a call of its [write] gives a result, that is, the
    attribute is callable and the call does not raise; and the strings
    [write] has received so far. *)
Record PyObj := {
  has_read : bool;
  has_write : bool;
  write_ok : bool;
  written : list bytes
}.

Definition do_write (o : PyObj) (frame : bytes) : PyObj :=
  {| has_read := has_read o; has_write := has_write o;
     write_ok := write_ok o;
     written := written o ++ [frame] |}.

(** An element of the [type_names] sequence: a string or anything else. *)
Inductive PyItem := PyString (name : string) | PyOther.

(** The [type_names] argument: a sequence or not ([PySequence_Check]). *)
Inductive PyArg := PySeq (items : list PyItem) | PyNotSeq.

Inductive PyExc := TypeError | ValueError | RuntimeError.

Inductive PyValue := Py_True | Py_False.

(** How a call ends: normally with a value, with a Python exception set
    (the [NULL] or [false] return after [PyErr_SetString]), or in
    undefined behaviour ([Py_DECREF] of a null pointer).  The first two
    carry the transport object as the call leaves it. *)
Inductive Res (A : Type) :=
| Ok (a : A) (o : PyObj)
| Raise (e : PyExc) (o : PyObj)
| Fault.

Arguments Ok {A} a o.
Arguments Raise {A} e o.
Arguments Fault {A}.

Definition bind {A B : Type} (m : Res A) (k : A -> PyObj -> Res B) : Res B :=
  match m with
  | Ok a o => k a o
  | Raise e o => Raise e o
  | Fault => Fault
  end.

Notation "' x , o <- m ;; k" := (bind m (fun x o => k))
  (at level 61, x pattern, o name, m at next level, right associativity).

(** What a call has passed to [write], whatever its end. *)
Definition sent {A : Type} (r : Res A) : option (list bytes) :=
  match r with
  | Ok _ o | Raise _ o => Some (written o)
  | Fault => None
  end.

Definition check_file (o : PyObj) : bool := has_write o.

Definition check_serial_port (o : PyObj) : bool := has_read o.

Section Commands.

Context {LC : LogConfig}.

(** [send_msg]: frame the buffer and call [serial_port.write(frame)].
    [PyObject_CallMethod] returns [NULL] when the object has no [write]
    attribute, and also when the attribute is there but the call fails;
    the [Py_DECREF] that follows is applied to the result unchecked and
    dereferences the null pointer. *)
Definition send_msg (serial_port : PyObj) (b : bytes) (length : Z) : Res bool :=
  let frame := encode_hdlc_frame b length in
  if has_write serial_port && write_ok serial_port
  then Ok true (do_write serial_port frame)
  else Fault.

(** Modelled from the spec: [find_ids] is defined in a header that is
    not among the sources.  The spec has it resolve a name to the ids of
    the catalogue, none when the name matches nothing; the call
    [find_ids(LogPacketTypeID_To_Name, n, name, type_ids)] of line 176
    hands it [type_ids] as the vector the ids are added to and reads the
    result as their number. *)
Definition find_ids (name : string) (type_ids : IdVector) : Z * IdVector :=
  (Z.of_nat (length (catalog_ids name)), type_ids ++ catalog_ids name).

(** The loop over [type_names] (lines 172-189); [None] is the
    [return false] after [PyErr_SetString(PyExc_ValueError, ...)]. *)
Fixpoint resolve_names (items : list PyItem) (type_ids : IdVector)
  : option IdVector :=
  match items with
  | [] => Some type_ids
  | PyString name :: items' =>
      let '(cnt, type_ids') := find_ids name type_ids in
      if cnt =? 0 then None else resolve_names items' type_ids'
  | PyOther :: items' => resolve_names items' type_ids
  end.

(** The search of lines 192-197: the position of the first
    [Modem_debug_message], or [None] for [type_ids.end()]. *)
Fixpoint find_debug (type_ids : IdVector) : option nat :=
  match type_ids with
  | [] => None
  | x :: l =>
      if x =? Modem_debug_message then Some 0%nat
      else option_map S (find_debug l)
  end.

(** [type_ids.erase(debug_ind)] *)
Definition erase (type_ids : IdVector) (debug_ind : nat) : IdVector :=
  firstn debug_ind type_ids ++ skipn (S debug_ind) type_ids.

(** The block the source repeats for every command it sends from
    [generate_log_config_msgs] and [dm_collector_c_generate_diag_cfg]:
    encode, send when the buffer is neither null nor empty, otherwise
    set [RuntimeError]. *)
Definition config_msg (file_or_serial : PyObj) (op : LogConfigOp)
           (ids : IdVector) : Res bool :=
  match encode_log_config op ids with
  | (Some b, len) =>
      if len =? 0 then Raise RuntimeError file_or_serial
      else send_msg file_or_serial b len
  | (None, _) => Raise RuntimeError file_or_serial
  end.

(** The loop of lines 222-232. *)
Fixpoint send_masks (file_or_serial : PyObj) (type_id_vectors : list IdVector)
  : Res bool :=
  match type_id_vectors with
  | [] => Ok true file_or_serial
  | v :: vs =>
      ' _ , o <- config_msg file_or_serial SET_MASK v ;;
      send_masks o vs
  end.

(** [generate_log_config_msgs]: [Ok true] is [return true], [Raise] is
    [return false] with the exception set. *)
Definition generate_log_config_msgs (file_or_serial : PyObj)
           (type_names : list PyItem) : Res bool :=
  match resolve_names type_names [] with
  | None => Raise ValueError file_or_serial
  | Some type_ids =>
      match find_debug type_ids with
      | Some debug_ind =>
          let type_ids := erase type_ids debug_ind in
          ' _ , o <- config_msg file_or_serial DEBUG_LTE_ML1 type_ids ;;
          ' _ , o <- config_msg o DEBUG_WCDMA_L1 type_ids ;;
          send_masks o (snd (sort_type_ids type_ids))
      | None =>
          send_masks file_or_serial (snd (sort_type_ids type_ids))
      end
  end.

Definition dm_collector_c_disable_logs (serial_port : PyObj) : Res PyValue :=
  if negb (check_serial_port serial_port)
  then Raise TypeError serial_port
  else
    match encode_log_config DISABLE [] with
    | (None, _) => Ok Py_False serial_port
    | (Some b, len) =>
        if len =? 0 then Ok Py_False serial_port
        else ' _ , o <- send_msg serial_port b len ;; Ok Py_True o
    end.

Definition dm_collector_c_enable_logs (serial_port : PyObj) (sequence : PyArg)
  : Res PyValue :=
  if negb (check_serial_port serial_port)
  then Raise TypeError serial_port
  else
    match sequence with
    | PyNotSeq => Raise TypeError serial_port
    | PySeq items =>
        ' _ , o <- generate_log_config_msgs serial_port items ;;
        Ok Py_True o
    end.

Definition dm_collector_c_generate_diag_cfg (file : PyObj) (sequence : PyArg)
  : Res PyValue :=
  if negb (check_file file)
  then Raise TypeError file
  else
    match sequence with
    | PyNotSeq => Raise TypeError file
    | PySeq items =>
        ' _ , o <- config_msg file DISABLE [] ;;
        ' _ , o <- generate_log_config_msgs o items ;;
        Ok Py_True o
    end.

End Commands.

(** ** What [hdlc.h], [log_packet.h] and the C library provide to the
    receive path *)

Class PacketSource := {
  (** The state outside the function: the deframer's buffer and the
      clock. *)
  World : Type;
  (** The Python object that [decode_log_packet] builds. *)
  Decoded : Type;
  (** C [double] with the two operations and the two constants used. *)
  double : Type;
  double_of_int : Z -> double;
  double_add : double -> double -> double;
  double_div : double -> double -> double;
  double_1e6 : double;
  double_minus_1 : double;
  (** [gettimeofday]: the fields [tv_sec] and [tv_usec]. *)
  gettimeofday : World -> Z * Z;
  (** [bool get_next_frame(std::string& frame, bool& crc_correct)]: the
      return value, the two reference arguments, and the state left. *)
  get_next_frame : World -> (bool * bytes * bool) * World;
  (** [bool is_log_packet(const char *b, size_t length)] *)
  is_log_packet : bytes -> Z -> bool;
  (** [bool is_debug_packet(const char *b, size_t length)] *)
  is_debug_packet : bytes -> Z -> bool;
  (** [PyObject *decode_log_packet(const char *b, size_t length, bool)] *)
  decode_log_packet : bytes -> Z -> bool -> Decoded
}.

(** [v[k] = x] on a byte array; nothing happens out of range. *)
Fixpoint store (v : bytes) (k : nat) (x : byte) : bytes :=
  match v, k with
  | [], _ => []
  | _ :: v', O => x :: v'
  | y :: v', S k' => y :: store v' k' x
  end.

(** The initialiser of [char tmp[14]] (lines 380-385). *)
Definition tmp_init : bytes :=
  [0x00; 0x00;
   0x00; 0x00; 0xeb; 0x1f;
   0x00; 0x00; 0x00; 0x00;
   0x00; 0x00; 0x00; 0x00].

(** [tmp] after [tmp[2] = (char)(frame.size() + 14)]: the conversion to
    [char] keeps the low eight bits. *)
Definition debug_header (frame_size : Z) : bytes :=
  store tmp_init 2 ((frame_size + 14) mod 256).

(** [size_t] arithmetic. *)
Definition size_t_sub (a b : Z) : Z := (a - b) mod 2 ^ 64.
Definition size_t_add (a b : Z) : Z := (a + b) mod 2 ^ 64.

(** A little-endian unsigned 16-bit field at [offset]. *)
Definition uint16_le (b : bytes) (offset : nat) : Z :=
  nth offset b 0 + 256 * nth (S offset) b 0.

(** Modelled from the spec: the header format of [decode_log_packet]
    lives in [log_packet.h], which is not among the sources.  The spec
    gives the fixed header little-endian [type_id] and [length] fields at
    known offsets; the offsets are those the template fixes, the length
    at the patched bytes 2-3 and the type id at the bytes [eb 1f]. *)
Definition header_length_field (packet : bytes) : Z := uint16_le packet 2.

(** Modelled from the spec: see [header_length_field]. *)
Definition header_type_id (packet : bytes) : Z := uint16_le packet 4.

Section Receive.

Context {PS : PacketSource}.

Inductive PyRet :=
| RNone
| RDecoded (decoded : Decoded)
| RPair (decoded : Decoded) (posix_timestamp : double).

Definition get_posix_timestamp (w : World) : double :=
  let '(tv_sec, tv_usec) := gettimeofday w in
  double_add (double_of_int tv_sec)
             (double_div (double_of_int tv_usec) double_1e6).

(** An optional argument is given by what [PyObject_IsTrue] returns on
    it, when it is present. *)
Definition flag_of (arg : option Z) : bool :=
  match arg with
  | Some is_true => is_true =? 1
  | None => false
  end.

(** The buffer [s] that the debug branch passes on: the patched header
    followed by the frame. *)
Definition debug_packet (frame : bytes) : bytes :=
  debug_header (Z.of_nat (length frame)) ++ frame.

Definition dm_collector_c_receive_log_packet
           (arg_skip_decoding arg_include_timestamp : option Z) (w : World)
  : PyRet * World :=
  let skip_decoding := flag_of arg_skip_decoding in
  let include_timestamp := flag_of arg_include_timestamp in
  let posix_timestamp :=
    if include_timestamp then get_posix_timestamp w else double_minus_1 in
  let '(success, frame, crc_correct, w') := get_next_frame w in
  let size := Z.of_nat (length frame) in
  if success && crc_correct then
    if is_log_packet frame size then
      let decoded :=
        decode_log_packet (skipn 2 frame) (size_t_sub size 2) skip_decoding in
      if include_timestamp then (RPair decoded posix_timestamp, w')
      else (RDecoded decoded, w')
    else if is_debug_packet frame size then
      let s := debug_packet frame in
      let decoded :=
        decode_log_packet s (size_t_add size 14) skip_decoding in
      if include_timestamp then (RPair decoded posix_timestamp, w')
      else (RDecoded decoded, w')
    else (RNone, w')
  else (RNone, w').

End Receive.

(** ** The commands of a batch

    The source sends its commands one block after the other.  To speak of
    the batch as a whole, [enable_commands] lists the commands that
    [generate_log_config_msgs] goes through for a resolved id vector, and
    [send_all] runs the send block over such a list; they are related to
    the source functions by [generate_log_config_msgs_plan] below. *)

Definition command := (LogConfigOp * IdVector)%type.

(** The command that [disable_logs] and [generate_diag_cfg] build with
    the empty vector [empty]. *)
Definition disable_command : command := (DISABLE, []).

Definition is_string (item : PyItem) : bool :=
  match item with
  | PyString _ => true
  | PyOther => false
  end.

(** The object after [write] has received [frames], in order. *)
Definition write_all (o : PyObj) (frames : list bytes) : PyObj :=
  {| has_read := has_read o; has_write := has_write o;
     write_ok := write_ok o;
     written := written o ++ frames |}.

Section Batch.

Context {LC : LogConfig}.

(** The test [buf.first != NULL && buf.second != 0]. *)
Definition encodable (c : command) : bool :=
  match encode_log_config (fst c) (snd c) with
  | (Some _, len) => negb (len =? 0)
  | (None, _) => false
  end.

(** The frame that goes to [write] for an encodable command. *)
Definition frame_of (c : command) : bytes :=
  match encode_log_config (fst c) (snd c) with
  | (Some b, len) => encode_hdlc_frame b len
  | (None, _) => []
  end.

Fixpoint send_all (o : PyObj) (cmds : list command) : Res bool :=
  match cmds with
  | [] => Ok true o
  | c :: cs => ' _ , o' <- config_msg o (fst c) (snd c) ;; send_all o' cs
  end.

Definition set_masks (type_id_vectors : list IdVector) : list command :=
  map (fun v => (SET_MASK, v)) type_id_vectors.

Definition enable_commands (type_ids : IdVector) : list command :=
  match find_debug type_ids with
  | Some debug_ind =>
      let ids := erase type_ids debug_ind in
      (DEBUG_LTE_ML1, ids) :: (DEBUG_WCDMA_L1, ids)
        :: set_masks (snd (sort_type_ids ids))
  | None => set_masks (snd (sort_type_ids type_ids))
  end.

(** The ids that the [SetMask] commands of a batch carry. *)
Definition set_mask_ids (cmds : list command) : list IdVector :=
  map snd (filter (fun c => match fst c with SET_MASK => true | _ => false end)
                  cmds).

End Batch.

(** ** The ids of a request

    What one element of [type_names] adds to [type_ids] when the loop of
    [generate_log_config_msgs] passes it. *)

Section Requests.

Context {LC : LogConfig}.

Definition item_ids (item : PyItem) : IdVector :=
  match item with
  | PyString name => catalog_ids name
  | PyOther => []
  end.

(** The equipment id a bucket is sent under: that of its first id. *)
Definition bucket_equip_id (r : IdVector) : Z := get_equip_id (hd 0 r).

(** The commands of a batch up to the first that does not encode. *)
Fixpoint sendable_prefix (cmds : list command) : list command :=
  match cmds with
  | [] => []
  | c :: cs => if encodable c then c :: sendable_prefix cs else []
  end.

End Requests.

(** ** A small implementation of the interfaces

    Used only to run the definitions on concrete inputs. *)

Module Sample.

Definition equip_id (type_id : Z) : Z :=
  Z.shiftr (Z.land type_id 0xF000) 12.

Definition ids_of (name : string) : IdVector :=
  if String.eqb name "Modem_debug_message" then [0x1FEB]
  else if String.eqb name "LTE_RRC_OTA_Packet" then [0xB0C0]
  else if String.eqb name "LTE_NAS_EMM_State" then [0xB0EE]
  else if String.eqb name "WCDMA_CELL_ID" then [0x4127]
  else [].

Definition opcode (op : LogConfigOp) : byte :=
  match op with
  | DISABLE => 0 | SET_MASK => 3 | DEBUG_LTE_ML1 => 5 | DEBUG_WCDMA_L1 => 6
  end.

Definition encode (op : LogConfigOp) (ids : IdVector) : BinaryBuffer :=
  let b := opcode op :: map (fun id => id mod 256) ids in
  (Some b, Z.of_nat (length b)).

Definition frame_of (b : bytes) (len : Z) : bytes :=
  firstn (Z.to_nat len) b ++ [0x7e].

#[export] Instance log_config : LogConfig := {|
  get_equip_id := equip_id;
  catalog_ids := ids_of;
  Modem_debug_message := 0x1FEB;
  encode_log_config := encode;
  encode_hdlc_frame := frame_of
|}.

(** The same, with an encoder that always returns the null buffer. *)
Definition null_config : LogConfig := {|
  get_equip_id := equip_id;
  catalog_ids := ids_of;
  Modem_debug_message := 0x1FEB;
  encode_log_config := fun _ _ => (None, 0);
  encode_hdlc_frame := frame_of
|}.

(** The same, with an encoder that cannot encode a [SET_MASK] whose
    first id has equipment id 4. *)
Definition picky_encode (op : LogConfigOp) (ids : IdVector) : BinaryBuffer :=
  match op with
  | SET_MASK => if equip_id (hd 0 ids) =? 4 then (None, 0) else encode op ids
  | _ => encode op ids
  end.

Definition picky_config : LogConfig := {|
  get_equip_id := equip_id;
  catalog_ids := ids_of;
  Modem_debug_message := 0x1FEB;
  encode_log_config := picky_encode;
  encode_hdlc_frame := frame_of
|}.

(** A port with both attributes, one without [write], a file, and a
    port whose [write] is there but fails when called. *)
Definition port : PyObj :=
  {| has_read := true; has_write := true; write_ok := true; written := [] |}.
Definition read_only_port : PyObj :=
  {| has_read := true; has_write := false; write_ok := false; written := [] |}.
Definition file : PyObj :=
  {| has_read := false; has_write := true; write_ok := true; written := [] |}.
Definition closed_port : PyObj :=
  {| has_read := true; has_write := true; write_ok := false; written := [] |}.

(** The world is a clock reading and the frames still to come, each with
    its checksum verdict; a [double] is a count of microseconds. *)
Definition first_byte_in (b : bytes) (len : Z) (tags : list Z) : bool :=
  (2 <=? len) && existsb (Z.eqb (nth 0 b 0)) tags.

#[export] Instance packet_source : PacketSource := {|
  World := (Z * Z) * list (bytes * bool);
  Decoded := bytes * Z * bool;
  double := Z;
  double_of_int := fun z => z * 1000000;
  double_add := Z.add;
  double_div := fun a b => a * 1000000 / b;
  double_1e6 := 1000000 * 1000000;
  double_minus_1 := - 1000000;
  gettimeofday := fun w => fst w;
  get_next_frame := fun w =>
    match snd w with
    | [] => ((false, [], false), w)
    | (frame, crc) :: rest =>
        ((true, frame, crc), ((fst (fst w) + 1, snd (fst w)), rest))
    end;
  is_log_packet := fun b len => first_byte_in b len [0x10];
  is_debug_packet := fun b len => first_byte_in b len [0x79; 0x92];
  decode_log_packet := fun b len skip => (b, len, skip)
|}.

End Sample.

(** * Properties *)

(** ** Sorting and deduplication *)

Lemma insert_sorted_perm (x : Z) (l : IdVector) :
  Permutation (x :: l) (insert_sorted x l).
Proof.
  induction l as [|y l IH]; simpl.
  - apply Permutation_refl.
  - destruct (x <=? y).
    + apply Permutation_refl.
    + apply perm_trans with (y :: x :: l).
      * apply perm_swap.
      * apply perm_skip, IH.
Qed.

Lemma sort_perm (l : IdVector) : Permutation l (sort l).
Proof.
  induction l as [|x l IH]; simpl.
  - apply perm_nil.
  - apply perm_trans with (x :: sort l).
    + apply perm_skip, IH.
    + apply insert_sorted_perm.
Qed.

Lemma insert_sorted_ascending (x : Z) (l : IdVector) :
  StronglySorted Z.le l -> StronglySorted Z.le (insert_sorted x l).
Proof.
  induction 1 as [|y l Hl IH Hy]; simpl.
  - repeat constructor.
  - destruct (x <=? y) eqn:E.
    + apply Z.leb_le in E.
      constructor; [constructor; assumption|].
      constructor; [assumption|].
      eapply Forall_impl; [|exact Hy]. intros; lia.
    + apply Z.leb_gt in E.
      constructor; [assumption|].
      apply (Permutation_Forall (insert_sorted_perm x l)).
      constructor; [lia | assumption].
Qed.

Lemma sort_ascending (l : IdVector) : StronglySorted Z.le (sort l).
Proof.
  induction l; simpl; [constructor | now apply insert_sorted_ascending].
Qed.

Lemma unique_In (x : Z) (l : IdVector) : In x (unique l) <-> In x l.
Proof.
  induction l as [|y l IH]; [reflexivity|].
  destruct l as [|z l]; [reflexivity|].
  change (unique (y :: z :: l))
    with (if y =? z then unique (z :: l) else y :: unique (z :: l)).
  destruct (Z.eqb_spec y z) as [->|Hne].
  - rewrite IH. simpl. tauto.
  - simpl In at 1. rewrite IH. simpl. tauto.
Qed.

Lemma unique_strict (l : IdVector) :
  StronglySorted Z.le l -> StronglySorted Z.lt (unique l).
Proof.
  induction 1 as [|y l Hl IH Hy]; [constructor|].
  destruct l as [|z l]; [repeat constructor|].
  change (unique (y :: z :: l))
    with (if y =? z then unique (z :: l) else y :: unique (z :: l)).
  destruct (Z.eqb_spec y z) as [->|Hne]; [exact IH|].
  constructor; [exact IH|].
  apply Forall_forall. intros x Hx. apply (proj1 (unique_In x (z :: l))) in Hx.
  inversion Hl as [|? ? _ Hz]; subst.
  inversion Hy as [|? ? Hyz _]; subst.
  simpl in Hx. destruct Hx as [<-|Hx]; [lia|].
  rewrite Forall_forall in Hz. specialize (Hz x Hx). lia.
Qed.

(** The vector that [sort_type_ids] leaves in [type_ids] is strictly
    ascending and has exactly the ids of the input. *)
Lemma sort_unique_spec (type_ids : IdVector) :
  StronglySorted Z.lt (unique (sort type_ids)) /\
  forall x, In x (unique (sort type_ids)) <-> In x type_ids.
Proof.
  split.
  - apply unique_strict, sort_ascending.
  - intro x. rewrite unique_In. split; intro H.
    + eapply Permutation_in; [apply Permutation_sym, sort_perm | exact H].
    + eapply Permutation_in; [apply sort_perm | exact H].
Qed.

(** ** The bucketing loop *)

Section BucketingFacts.

Context {LC : LogConfig}.

Lemma slice_middle (pre cur rest : IdVector) :
  slice (pre ++ cur ++ rest) (length pre) (length pre + length cur) = cur.
Proof.
  unfold slice.
  rewrite skipn_app, skipn_all, Nat.sub_diag. simpl.
  replace (length pre + length cur - length pre)%nat with (length cur) by lia.
  rewrite firstn_app, firstn_all, Nat.sub_diag. simpl.
  apply app_nil_r.
Qed.

Lemma nth_after (pre cur rest : IdVector) (x : Z) :
  nth (length pre + length cur) (pre ++ cur ++ x :: rest) 0 = x.
Proof.
  rewrite app_assoc, <- length_app. apply nth_middle.
Qed.

Lemma last_in (cur : IdVector) : cur <> [] -> In (last cur 0) cur.
Proof.
  intro H. destruct (exists_last H) as [l [a ->]].
  rewrite last_last. apply in_or_app. right. now left.
Qed.

(** The loop, started in the middle of the vector with [cur] as the open
    bucket, and followed by the final [push_back], adds [close cur rest]
    to [out_vectors]. *)
Lemma bucket_loop_close (rest : IdVector) :
  forall (pre cur : IdVector) (out : list IdVector) v i last_id out',
    cur <> [] ->
    v = pre ++ cur ++ rest ->
    bucket_loop v (seq (length pre + length cur) (length rest))
                (length pre) (get_equip_id (last cur 0)) out
    = (i, last_id, out') ->
    (if negb (Nat.eqb i (length v))
     then out' ++ [slice v i (length v)] else out')
    = out ++ close cur rest.
Proof.
  induction rest as [|x rest IH]; intros pre cur out v i last_id out' Hcur Hv Hloop.
  - simpl in Hloop. injection Hloop as <- _ <-.
    assert (Hlen : length v = (length pre + length cur)%nat)
      by (subst v; rewrite !length_app; simpl; lia).
    assert (Hpos : (0 < length cur)%nat)
      by (destruct cur; [congruence | simpl; lia]).
    rewrite Hlen.
    destruct (Nat.eqb_spec (length pre) (length pre + length cur)); [lia|].
    simpl. subst v. now rewrite slice_middle.
  - assert (Hpos : (0 < length cur)%nat)
      by (destruct cur; [congruence | simpl; lia]).
    cbn [length seq bucket_loop] in Hloop.
    rewrite Hv, nth_after, <- Hv in Hloop.
    destruct (Nat.eqb_spec (length pre + length cur) 0); [lia|].
    cbn [negb andb] in Hloop. cbn [close].
    destruct (Z.eqb_spec (get_equip_id (last cur 0)) (get_equip_id x)) as [He|He];
      cbn [negb] in Hloop.
    + apply (IH pre (cur ++ [x]) out v i last_id out').
      * destruct cur; discriminate.
      * subst v. now rewrite <- app_assoc.
      * rewrite last_last, length_app. simpl.
        replace (length pre + (length cur + 1))%nat
          with (S (length pre + length cur)) by lia.
        exact Hloop.
    + rewrite (IH (pre ++ cur) [x] (out ++ [slice v (length pre)
                                              (length pre + length cur)])
                  v i last_id out').
      * subst v. rewrite slice_middle, <- app_assoc. reflexivity.
      * discriminate.
      * subst v. now rewrite <- app_assoc.
      * rewrite length_app. simpl.
        replace (length pre + length cur + 1)%nat
          with (S (length pre + length cur)) by lia.
        exact Hloop.
Qed.

(** [sort_type_ids] computes the structural buckets of the sorted,
    deduplicated vector. *)
Lemma sort_type_ids_buckets (type_ids : IdVector) :
  sort_type_ids type_ids
  = (unique (sort type_ids), buckets (unique (sort type_ids))).
Proof.
  unfold sort_type_ids.
  destruct (unique (sort type_ids)) as [|x rest] eqn:Ev.
  - reflexivity.
  - destruct (bucket_loop (x :: rest) (seq 0 (length (x :: rest))) 0 (-1) [])
      as [[i last_id] out'] eqn:Hloop.
    f_equal.
    cbn [length seq bucket_loop Nat.eqb negb andb] in Hloop.
    apply (bucket_loop_close rest [] [x] [] (x :: rest) i last_id out').
    + discriminate.
    + reflexivity.
    + exact Hloop.
Qed.

Lemma close_concat (rest cur : IdVector) :
  concat (close cur rest) = cur ++ rest.
Proof.
  revert cur. induction rest as [|x rest IH]; intro cur; cbn [close].
  - simpl. reflexivity.
  - destruct (_ =? _).
    + rewrite IH, <- app_assoc. reflexivity.
    + cbn [concat]. rewrite IH. reflexivity.
Qed.

Lemma close_nonempty (rest cur : IdVector) :
  cur <> [] -> Forall (fun r => r <> []) (close cur rest).
Proof.
  revert cur. induction rest as [|x rest IH]; intros cur Hcur; cbn [close].
  - now constructor.
  - destruct (_ =? _).
    + apply IH. destruct cur; discriminate.
    + constructor; [assumption | apply IH; discriminate].
Qed.

Lemma uniform_singleton (x : Z) : uniform [x].
Proof.
  intros a b [<-|[]] [<-|[]]. reflexivity.
Qed.

Lemma uniform_snoc (cur : IdVector) (x : Z) :
  cur <> [] -> uniform cur ->
  get_equip_id (last cur 0) = get_equip_id x ->
  uniform (cur ++ [x]).
Proof.
  intros Hcur Hu He a b Ha Hb.
  assert (H : forall c, In c (cur ++ [x]) -> get_equip_id c = get_equip_id x).
  { intros c Hc. apply in_app_or in Hc. destruct Hc as [Hc|[<-|[]]]; [|reflexivity].
    rewrite <- He. apply Hu; [assumption | now apply last_in]. }
  now rewrite (H a Ha), (H b Hb).
Qed.

Lemma close_uniform (rest cur : IdVector) :
  cur <> [] -> uniform cur -> Forall uniform (close cur rest).
Proof.
  revert cur. induction rest as [|x rest IH]; intros cur Hcur Hu; cbn [close].
  - now constructor.
  - destruct (Z.eqb_spec (get_equip_id (last cur 0)) (get_equip_id x)).
    + apply IH; [destruct cur; discriminate | now apply uniform_snoc].
    + constructor; [assumption|].
      apply IH; [discriminate | apply uniform_singleton].
Qed.

Lemma close_head (rest cur : IdVector) :
  exists tl rs, close cur rest = (cur ++ tl) :: rs.
Proof.
  revert cur. induction rest as [|x rest IH]; intro cur; cbn [close].
  - exists [], []. now rewrite app_nil_r.
  - destruct (_ =? _).
    + destruct (IH (cur ++ [x])) as [tl [rs ->]].
      exists ([x] ++ tl), rs. now rewrite app_assoc.
    + exists [], (close [x] rest). now rewrite app_nil_r.
Qed.

Lemma close_breaks (rest cur : IdVector) :
  breaks_at_changes (close cur rest).
Proof.
  revert cur. induction rest as [|x rest IH]; intro cur; cbn [close].
  - exact I.
  - destruct (Z.eqb_spec (get_equip_id (last cur 0)) (get_equip_id x)).
    + apply IH.
    + specialize (IH [x]).
      destruct (close_head rest [x]) as [tl [rs E]].
      rewrite E in *. split; assumption.
Qed.

(** The buckets of [sort_type_ids]: concatenated they are the sorted,
    deduplicated vector; none is empty; each has one equipment id; and
    two consecutive buckets meet where the equipment id changes.  So
    they are the maximal runs of equal equipment id. *)
Lemma sort_type_ids_grouping (type_ids : IdVector) :
  let '(v, out_vectors) := sort_type_ids type_ids in
  v = unique (sort type_ids) /\
  concat out_vectors = v /\
  Forall (fun r => r <> []) out_vectors /\
  Forall uniform out_vectors /\
  breaks_at_changes out_vectors.
Proof.
  rewrite sort_type_ids_buckets.
  destruct (unique (sort type_ids)) as [|x rest]; cbn [buckets].
  - repeat split; constructor.
  - split; [reflexivity|]. split; [apply close_concat|].
    split; [apply close_nonempty; discriminate|].
    split; [apply close_uniform; [discriminate | apply uniform_singleton]|].
    apply close_breaks.
Qed.

End BucketingFacts.

(** ** The send block and the batch *)

Section BatchFacts.

Context {LC : LogConfig}.

Lemma config_msg_cases (o : PyObj) (c : command) :
  config_msg o (fst c) (snd c)
  = if encodable c
    then if has_write o && write_ok o
         then Ok true (do_write o (frame_of c)) else Fault
    else Raise RuntimeError o.
Proof.
  unfold config_msg, encodable, frame_of, send_msg.
  destruct (encode_log_config (fst c) (snd c)) as [[b|] len]; [|reflexivity].
  destruct (len =? 0); reflexivity.
Qed.

Lemma send_masks_send_all (vs : list IdVector) :
  forall o, send_masks o vs = send_all o (set_masks vs).
Proof.
  induction vs as [|v vs IH]; intro o; [reflexivity|].
  cbn [send_masks set_masks map send_all fst snd].
  destruct (config_msg o SET_MASK v); cbn [bind]; auto.
Qed.

(** [generate_log_config_msgs] resolves the names and then sends the
    commands of [enable_commands], in order. *)
Lemma generate_log_config_msgs_plan (o : PyObj) (items : list PyItem) :
  generate_log_config_msgs o items
  = match resolve_names items [] with
    | None => Raise ValueError o
    | Some type_ids => send_all o (enable_commands type_ids)
    end.
Proof.
  unfold generate_log_config_msgs, enable_commands.
  destruct (resolve_names items []) as [type_ids|]; [|reflexivity].
  destruct (find_debug type_ids) as [k|].
  - cbn [send_all fst snd].
    destruct (config_msg o DEBUG_LTE_ML1 (erase type_ids k)) as [a o1| |];
      cbn [bind]; try reflexivity.
    destruct (config_msg o1 DEBUG_WCDMA_L1 (erase type_ids k)) as [a' o2| |];
      cbn [bind]; try reflexivity.
    apply send_masks_send_all.
  - apply send_masks_send_all.
Qed.

Lemma send_all_app (pre post : list command) :
  forall o,
    send_all o (pre ++ post)
    = ' _ , o' <- send_all o pre ;; send_all o' post.
Proof.
  induction pre as [|c pre IH]; intro o; [reflexivity|].
  cbn [app send_all].
  destruct (config_msg o (fst c) (snd c)); cbn [bind]; auto.
Qed.

Lemma write_all_nil (o : PyObj) : write_all o [] = o.
Proof.
  destruct o. unfold write_all. simpl. now rewrite app_nil_r.
Qed.

Lemma write_all_do_write (o : PyObj) (f : bytes) (fs : list bytes) :
  write_all (do_write o f) fs = write_all o (f :: fs).
Proof.
  unfold write_all, do_write. simpl. now rewrite <- app_assoc.
Qed.

(** A batch of encodable commands, sent to an object whose [write] is
    there and returns, writes the frame of each, in order. *)
Lemma send_all_ok (cmds : list command) :
  forall o,
    has_write o = true ->
    write_ok o = true ->
    forallb encodable cmds = true ->
    send_all o cmds = Ok true (write_all o (map frame_of cmds)).
Proof.
  induction cmds as [|c cmds IH]; intros o Hw Hok Hall.
  - simpl. now rewrite write_all_nil.
  - cbn [forallb] in Hall. apply andb_prop in Hall. destruct Hall as [Hc Hall].
    cbn [send_all map]. rewrite config_msg_cases, Hc, Hw, Hok. cbn [bind andb].
    rewrite IH by assumption. now rewrite write_all_do_write.
Qed.

(** The batch stops at a command that does not encode: what comes after
    it has no part in the outcome. *)
Lemma send_all_stops (pre post : list command) (c : command) (o : PyObj) :
  encodable c = false ->
  send_all o (pre ++ c :: post)
  = ' _ , o' <- send_all o pre ;; Raise RuntimeError o'.
Proof.
  intro Hc. rewrite send_all_app.
  destruct (send_all o pre) as [a o'| |]; cbn [bind]; try reflexivity.
  cbn [send_all]. now rewrite config_msg_cases, Hc.
Qed.

(** Whatever a batch does, it only adds to what [write] has received. *)
Lemma send_all_grows (cmds : list command) :
  forall o ws,
    sent (send_all o cmds) = Some ws ->
    exists more, ws = written o ++ more.
Proof.
  induction cmds as [|c cmds IH]; intros o ws H.
  - simpl in H. injection H as <-. exists []. now rewrite app_nil_r.
  - cbn [send_all] in H. rewrite config_msg_cases in H.
    destruct (encodable c).
    + destruct (has_write o && write_ok o); [|discriminate].
      cbn [bind] in H. destruct (IH _ _ H) as [more ->].
      exists (frame_of c :: more). simpl. now rewrite <- app_assoc.
    + simpl in H. injection H as <-. exists []. now rewrite app_nil_r.
Qed.

(** *** Name resolution *)

Lemma resolve_names_strings (items : list PyItem) :
  forall type_ids,
    resolve_names items type_ids
    = resolve_names (filter is_string items) type_ids.
Proof.
  induction items as [|[name|] items IH]; intro type_ids.
  - reflexivity.
  - cbn [filter is_string resolve_names find_ids].
    destruct (_ =? 0); [reflexivity | apply IH].
  - cbn [filter is_string resolve_names]. apply IH.
Qed.

Lemma resolve_names_unknown (items : list PyItem) (name : string) :
  In (PyString name) items ->
  catalog_ids name = [] ->
  forall type_ids, resolve_names items type_ids = None.
Proof.
  intros Hin Hnone.
  induction items as [|item items IH]; intro type_ids; [destruct Hin|].
  destruct Hin as [->|Hin].
  - cbn [resolve_names find_ids]. now rewrite Hnone.
  - destruct item as [name'|]; cbn [resolve_names find_ids].
    + destruct (_ =? 0); [reflexivity | now apply IH].
    + now apply IH.
Qed.

(** *** The debug adjustment *)

Lemma find_debug_None (type_ids : IdVector) :
  find_debug type_ids = None <-> ~ In Modem_debug_message type_ids.
Proof.
  induction type_ids as [|x l IH]; simpl.
  - tauto.
  - destruct (Z.eqb_spec x Modem_debug_message) as [->|Hne].
    + split; [discriminate | tauto].
    + destruct (find_debug l); simpl in *.
      * split; [discriminate|]. intro H. exfalso. apply H. right.
        destruct IH as [IH1 IH2].
        destruct (in_dec Z.eq_dec Modem_debug_message l) as [Hin|Hout];
          [assumption | now discriminate (IH2 Hout)].
      * split; [|reflexivity]. intros _ [E|Hin]; [congruence|].
        now apply (proj1 IH).
Qed.

(** Erasing at the position found removes one occurrence of the debug
    id and keeps every other id. *)
Lemma erase_find_debug (type_ids : IdVector) :
  forall k,
    find_debug type_ids = Some k ->
    forall x,
      count_occ Z.eq_dec type_ids x
      = ((if Z.eq_dec Modem_debug_message x then 1 else 0)
         + count_occ Z.eq_dec (erase type_ids k) x)%nat.
Proof.
  induction type_ids as [|y l IH]; intros k Hk x; [discriminate|].
  cbn [find_debug] in Hk.
  destruct (Z.eqb_spec y Modem_debug_message) as [->|Hne].
  - injection Hk as <-. unfold erase. cbn [firstn skipn app count_occ].
    destruct (Z.eq_dec Modem_debug_message x); reflexivity.
  - destruct (find_debug l) as [k'|]; [|discriminate].
    injection Hk as <-. specialize (IH k' eq_refl x).
    unfold erase in *. cbn [firstn skipn app count_occ].
    destruct (Z.eq_dec y x) as [->|]; rewrite IH.
    + destruct (Z.eq_dec Modem_debug_message x); [congruence | reflexivity].
    + reflexivity.
Qed.

(** When the debug id was resolved exactly once, the batch is the two
    debug commands on the other ids, followed by [SetMask] commands
    that do not carry the debug id. *)
Lemma enable_commands_single_debug (type_ids : IdVector) :
  count_occ Z.eq_dec type_ids Modem_debug_message = 1%nat ->
  exists ids,
    (forall x, In x ids <-> In x type_ids /\ x <> Modem_debug_message) /\
    enable_commands type_ids
    = (DEBUG_LTE_ML1, ids) :: (DEBUG_WCDMA_L1, ids)
        :: set_masks (snd (sort_type_ids ids)) /\
    ~ In Modem_debug_message (concat (snd (sort_type_ids ids))).
Proof.
  intro Hone. unfold enable_commands.
  destruct (find_debug type_ids) as [k|] eqn:Hk.
  - exists (erase type_ids k).
    pose proof (erase_find_debug type_ids k Hk) as Hcount.
    assert (Hin : forall x, In x (erase type_ids k)
                            <-> In x type_ids /\ x <> Modem_debug_message).
    { intro x. rewrite !(count_occ_In Z.eq_dec). specialize (Hcount x).
      pose proof (Hcount) as Hd.
      destruct (Z.eq_dec Modem_debug_message x) as [<-|Hne].
      - rewrite Hone in Hd. split; [lia | tauto].
      - split; [intro; split; [lia | congruence] | intros [? _]; lia]. }
    split; [exact Hin|]. split; [reflexivity|].
    pose proof (sort_type_ids_grouping (erase type_ids k)) as G.
    destruct (sort_type_ids (erase type_ids k)) as [v out].
    cbn [snd]. destruct G as [-> [-> _]].
    intro H. apply (proj2 (sort_unique_spec (erase type_ids k))) in H.
    apply (proj1 (Hin _)) in H. tauto.
  - apply find_debug_None in Hk.
    apply (count_occ_not_In Z.eq_dec) in Hk. lia.
Qed.

End BatchFacts.

(** ** The entry points of the command path *)

Section EntryPoints.

Context {LC : LogConfig}.

Lemma config_msg_disable (o : PyObj) :
config_msg o DISABLE []
= if encodable disable_command
  then if has_write o && write_ok o
       then Ok true (do_write o (frame_of disable_command))
       else Fault
  else Raise RuntimeError o.
Proof.
exact (config_msg_cases o disable_command).
Qed.

Lemma enable_logs_plan (port : PyObj) (items : list PyItem) :
has_read port = true ->
dm_collector_c_enable_logs port (PySeq items)
= match resolve_names items [] with
  | None => Raise ValueError port
  | Some type_ids =>
      ' _ , o <- send_all port (enable_commands type_ids) ;; Ok Py_True o
  end.
Proof.
intro Hr. unfold dm_collector_c_enable_logs, check_serial_port.
rewrite Hr. cbn [negb]. rewrite generate_log_config_msgs_plan.
destruct (resolve_names items []); reflexivity.
Qed.

Lemma generate_diag_cfg_plan (file : PyObj) (items : list PyItem) :
has_write file = true ->
write_ok file = true ->
dm_collector_c_generate_diag_cfg file (PySeq items)
= if encodable disable_command
  then match resolve_names items [] with
       | None => Raise ValueError (do_write file (frame_of disable_command))
       | Some type_ids =>
           ' _ , o <- send_all file (disable_command :: enable_commands type_ids) ;;
           Ok Py_True o
       end
  else Raise RuntimeError file.
Proof.
intros Hw Hok. unfold dm_collector_c_generate_diag_cfg, check_file.
rewrite Hw. cbn [negb send_all].
rewrite config_msg_disable, config_msg_cases, Hw, Hok. cbn [andb].
destruct (encodable disable_command); cbn [bind]; [|reflexivity].
rewrite generate_log_config_msgs_plan.
destruct (resolve_names items []); reflexivity.
Qed.

(** C10: the elements of [type_names] that are not strings are skipped:
  on each of the enable and config paths the call does exactly what it
  does on the sequence of the string elements alone, so they add no
  ids, raise nothing and leave the commands for the strings as they
  are. *)
Theorem non_strings_are_skipped (o : PyObj) (items : list PyItem) :
generate_log_config_msgs o items
= generate_log_config_msgs o (filter is_string items) /\
dm_collector_c_enable_logs o (PySeq items)
= dm_collector_c_enable_logs o (PySeq (filter is_string items)) /\
dm_collector_c_generate_diag_cfg o (PySeq items)
= dm_collector_c_generate_diag_cfg o (PySeq (filter is_string items)).
Proof.
assert (G : forall o', generate_log_config_msgs o' items
                       = generate_log_config_msgs o' (filter is_string items)).
{ intro o'. rewrite !generate_log_config_msgs_plan.
  now rewrite <- resolve_names_strings. }
split; [apply G|]. split.
- unfold dm_collector_c_enable_logs. now rewrite G.
- unfold dm_collector_c_generate_diag_cfg.
  destruct (negb (check_file o)); [reflexivity|].
  destruct (config_msg o DISABLE []); cbn [bind]; try reflexivity.
  now rewrite G.
Qed.

(** C7: a call of [generate_diag_cfg] that succeeds has written, before
  anything else, the frame of the [DISABLE] command encoded with the
  empty id vector; the commands for the requested names are generated
  after it, on the file that already holds that frame. *)
Theorem diag_cfg_starts_with_disable (file : PyObj) (sequence : PyArg)
      (file' : PyObj) :
dm_collector_c_generate_diag_cfg file sequence = Ok Py_True file' ->
exists items rest,
  sequence = PySeq items /\
  encodable disable_command = true /\
  written file' = written file ++ frame_of disable_command :: rest /\
  generate_log_config_msgs (do_write file (frame_of disable_command)) items
  = Ok true file'.
Proof.
unfold dm_collector_c_generate_diag_cfg, check_file. intro H.
destruct (has_write file) eqn:Hw; cbn [negb] in H; [|discriminate].
destruct sequence as [items|]; [|discriminate].
rewrite config_msg_disable, Hw in H. cbn [andb] in H.
destruct (encodable disable_command); cbn [bind] in H; [|discriminate].
destruct (write_ok file); cbn [bind] in H; [|discriminate].
destruct (generate_log_config_msgs (do_write file (frame_of disable_command)) items)
  as [b o| |] eqn:G; cbn [bind] in H; try discriminate.
injection H as <-.
assert (S : exists more, written o
                         = written (do_write file (frame_of disable_command)) ++ more).
{ rewrite generate_log_config_msgs_plan in G.
  destruct (resolve_names items []) as [type_ids|]; [|discriminate].
  apply (send_all_grows (enable_commands type_ids)). now rewrite G. }
destruct S as [more S]. exists items, more.
repeat split.
- rewrite S. simpl. now rewrite <- app_assoc.
- rewrite G. destruct b; [reflexivity|].
  rewrite generate_log_config_msgs_plan in G.
  destruct (resolve_names items []) as [type_ids|]; [|discriminate].
  exfalso. clear S. revert G. generalize (do_write file (frame_of disable_command)).
  induction (enable_commands type_ids) as [|c cs IH]; intros o0 G.
  + discriminate.
  + cbn [send_all] in G. rewrite config_msg_cases in G.
    destruct (encodable c); [|discriminate].
    destruct (has_write o0 && write_ok o0); [|discriminate].
    cbn [bind] in G. now apply IH in G.
Qed.

(** C3, as amended: when some string of the requested sequence resolves
  to no type id, the call fails with [ValueError] and none of the
  enable commands is written.  On [enable_logs], for a port that has
  [read], nothing is written at all; on [generate_diag_cfg], for a file
  whose [write] is there and returns, the forced [DISABLE] command,
  which is sent before the names are resolved, is the one frame
  written. *)
Theorem unknown_name_aborts (port file : PyObj) (items : list PyItem)
      (name : string) :
In (PyString name) items ->
catalog_ids name = [] ->
has_read port = true ->
has_write file = true ->
write_ok file = true ->
encodable disable_command = true ->
dm_collector_c_enable_logs port (PySeq items) = Raise ValueError port /\
dm_collector_c_generate_diag_cfg file (PySeq items)
= Raise ValueError (do_write file (frame_of disable_command)).
Proof.
intros Hin Hnone Hr Hw Hok Hd.
rewrite (enable_logs_plan port items Hr).
rewrite (generate_diag_cfg_plan file items Hw Hok), Hd.
now rewrite (resolve_names_unknown items name Hin Hnone).
Qed.

(** C6, as amended: let a batch be the commands of an operation in the
  order it sends them, and let [c] be the first one whose buffer is
  null or empty, on a port and a file whose [write] is there and
  returns.  [enable_logs] and [generate_diag_cfg] then raise
  [RuntimeError] having written the frames of the commands before [c]
  and nothing more: [c] is not tried again and nothing after it is
  sent.  [disable_logs], whose batch is the [DISABLE] command alone,
  raises nothing: it returns [False], and writes nothing.  The failure
  is decided by the command alone: sent to any object, in any state,
  [c] fails the same way and leaves the object as it was. *)
Theorem encode_failure_aborts_batch (port file : PyObj) (items : list PyItem)
        (type_ids : IdVector) (pre post : list command) (c : command) :
  has_read port = true ->
  has_write port = true ->
  write_ok port = true ->
  has_write file = true ->
  write_ok file = true ->
  resolve_names items [] = Some type_ids ->
  forallb encodable pre = true ->
  encodable c = false ->
  (enable_commands type_ids = pre ++ c :: post ->
   dm_collector_c_enable_logs port (PySeq items)
   = Raise RuntimeError (write_all port (map frame_of pre))) /\
  (disable_command :: enable_commands type_ids = pre ++ c :: post ->
   dm_collector_c_generate_diag_cfg file (PySeq items)
   = Raise RuntimeError (write_all file (map frame_of pre))) /\
  (c = disable_command ->
   forall o, has_read o = true -> dm_collector_c_disable_logs o = Ok Py_False o) /\
  (forall o rest,
      config_msg o (fst c) (snd c) = Raise RuntimeError o /\
      send_all o (c :: rest) = Raise RuntimeError o).
Proof.
  intros Hr Hw Hok Hf Hfok Hres Hpre Hc. repeat split.
  - intro E. rewrite (enable_logs_plan port items Hr), Hres, E.
    rewrite (send_all_stops pre post c port Hc).
    rewrite (send_all_ok pre port Hw Hok Hpre).
    reflexivity.
  - intro E. rewrite (generate_diag_cfg_plan file items Hf Hfok), Hres.
    destruct (encodable disable_command) eqn:Hd.
    + rewrite E.
      rewrite (send_all_stops pre post c file Hc).
      rewrite (send_all_ok pre file Hf Hfok Hpre).
      reflexivity.
    + destruct pre as [|c' pre'].
      * simpl. now rewrite write_all_nil.
      * injection E as <- _. cbn [forallb] in Hpre.
        rewrite Hd in Hpre. discriminate.
  - intros -> o Ho. unfold dm_collector_c_disable_logs, check_serial_port.
    rewrite Ho. cbn [negb]. unfold encodable, disable_command in Hc.
    cbn [fst snd] in Hc.
    destruct (encode_log_config DISABLE []) as [[b|] len]; [|reflexivity].
    destruct (len =? 0); [reflexivity | discriminate].
  - now rewrite config_msg_cases, Hc.
  - cbn [send_all]. now rewrite config_msg_cases, Hc.
Qed.

End EntryPoints.

(** ** The receive path *)

Section ReceiveFacts.

Context {PS : PacketSource}.

(** C5: when the checksum of the frame taken from the deframer is wrong,
  or the frame is neither a log packet nor a debug packet,
  [receive_log_packet] returns [None], whatever its arguments, and
  leaves the deframer in the state in which [get_next_frame] left it,
  so the next call goes on with the next frame. *)
Theorem receive_drops_undecodable
      (arg_skip_decoding arg_include_timestamp : option Z) (w w' : World)
      (success crc_correct : bool) (frame : bytes) :
get_next_frame w = (success, frame, crc_correct, w') ->
crc_correct = false \/
(is_log_packet frame (Z.of_nat (length frame)) = false /\
 is_debug_packet frame (Z.of_nat (length frame)) = false) ->
dm_collector_c_receive_log_packet arg_skip_decoding arg_include_timestamp w
= (RNone, w').
Proof.
intros Hget Hbad. unfold dm_collector_c_receive_log_packet. rewrite Hget.
destruct Hbad as [->|[-> ->]].
- now rewrite andb_false_r.
- now destruct (success && crc_correct).
Qed.

(** C9: with [include_timestamp] true, the call returns a pair exactly
  when a frame was taken, its checksum is right and it is a log packet
  or a debug packet; in every other case it returns a bare [None].  The
  time in the pair is the clock as it was when the call started, before
  the deframer ran. *)
Theorem receive_timestamp_pairs
      (arg_skip_decoding arg_include_timestamp : option Z) (w w' : World)
      (success crc_correct : bool) (frame : bytes) :
flag_of arg_include_timestamp = true ->
get_next_frame w = (success, frame, crc_correct, w') ->
let size := Z.of_nat (length frame) in
let decodable :=
  success && crc_correct
  && (is_log_packet frame size || is_debug_packet frame size) in
(decodable = true ->
 exists decoded,
   dm_collector_c_receive_log_packet arg_skip_decoding arg_include_timestamp w
   = (RPair decoded (get_posix_timestamp w), w')) /\
(decodable = false ->
 dm_collector_c_receive_log_packet arg_skip_decoding arg_include_timestamp w
 = (RNone, w')).
Proof.
intros Hflag Hget size decodable. subst size decodable.
unfold dm_collector_c_receive_log_packet. rewrite Hget, Hflag.
destruct (success && crc_correct); cbn [andb].
- destruct (is_log_packet frame (Z.of_nat (length frame))); cbn [orb].
  + split; [eexists; reflexivity | discriminate].
  + destruct (is_debug_packet frame (Z.of_nat (length frame))).
    * split; [eexists; reflexivity | discriminate].
    * split; [discriminate | reflexivity].
- split; [discriminate | reflexivity].
Qed.

End ReceiveFacts.

(** The header that the debug branch puts in front of a frame: fourteen
    bytes, the type id [0x1FEB], and in the length field the low eight
    bits of the frame size plus fourteen. *)
Lemma debug_header_fields (frame_size : Z) :
  length (debug_header frame_size) = 14%nat /\
  header_type_id (debug_header frame_size) = 0x1FEB /\
  header_length_field (debug_header frame_size) = (frame_size + 14) mod 256.
Proof.
  unfold header_type_id, header_length_field, uint16_le, debug_header, tmp_init.
  cbn [store nth length]. repeat split. lia.
Qed.

(** ** More on [sort_type_ids] *)

Lemma strictly_ascending_ext (l : IdVector) :
  forall l',
    StronglySorted Z.lt l -> StronglySorted Z.lt l' ->
    (forall x, In x l <-> In x l') ->
    l = l'.
Proof.
  induction l as [|a l IH]; intros l' Hl Hl' Hin.
  - destruct l' as [|b l']; [reflexivity|].
    destruct (proj2 (Hin b) (or_introl eq_refl)).
  - destruct l' as [|b l'].
    + destruct (proj1 (Hin a) (or_introl eq_refl)).
    + inversion Hl as [|? ? Hl1 Ha]; subst.
      inversion Hl' as [|? ? Hl1' Hb]; subst.
      rewrite Forall_forall in Ha, Hb.
      assert (a = b).
      { destruct (proj1 (Hin a) (or_introl eq_refl)) as [E|Hab]; [now symmetry|].
        destruct (proj2 (Hin b) (or_introl eq_refl)) as [E|Hba]; [assumption|].
        specialize (Ha b Hba). specialize (Hb a Hab). lia. }
      subst b. f_equal. apply IH; try assumption.
      intro x. split; intro Hx.
      * destruct (proj1 (Hin x) (or_intror Hx)) as [E|H]; [|assumption].
        specialize (Ha x Hx). lia.
      * destruct (proj2 (Hin x) (or_intror Hx)) as [E|H]; [|assumption].
        specialize (Hb x Hx). lia.
Qed.

Lemma strictly_ascending_NoDup (l : IdVector) :
  StronglySorted Z.lt l -> NoDup l.
Proof.
  induction 1 as [|a l Hl IH Ha]; constructor; [|assumption].
  intro Hin. rewrite Forall_forall in Ha. specialize (Ha a Hin). lia.
Qed.

Lemma StronglySorted_app_r (R : Z -> Z -> Prop) (l1 l2 : IdVector) :
  StronglySorted R (l1 ++ l2) -> StronglySorted R l2.
Proof.
  induction l1 as [|a l1 IH]; simpl; intro H; [assumption|].
  inversion H; subst. now apply IH.
Qed.

Section MoreBucketing.

Context {LC : LogConfig}.

Lemma sort_type_ids_ext (l l' : IdVector) :
  (forall x, In x l <-> In x l') ->
  sort_type_ids l = sort_type_ids l'.
Proof.
  intro Hin. rewrite !sort_type_ids_buckets.
  assert (E : unique (sort l) = unique (sort l')).
  { apply strictly_ascending_ext; try apply sort_unique_spec.
    intro x. rewrite (proj2 (sort_unique_spec l) x).
    rewrite (proj2 (sort_unique_spec l') x). apply Hin. }
  now rewrite E.
Qed.

(** X1: for every vector given to [sort_type_ids], the buckets it returns,
    put end to end, are the sorted and deduplicated vector; no bucket is
    empty; the ids of a bucket have one equipment id; and where one bucket
    ends and the next begins the equipment id changes. *)
Theorem buckets_are_maximal_runs (type_ids : IdVector) :
  concat (snd (sort_type_ids type_ids)) = fst (sort_type_ids type_ids) /\
  Forall (fun r => r <> []) (snd (sort_type_ids type_ids)) /\
  Forall uniform (snd (sort_type_ids type_ids)) /\
  breaks_at_changes (snd (sort_type_ids type_ids)).
Proof.
  pose proof (sort_type_ids_grouping type_ids) as G.
  destruct (sort_type_ids type_ids) as [v out]. cbn [fst snd].
  destruct G as [_ G]. exact G.
Qed.

(** X2: the vector that [sort_type_ids] leaves in [type_ids] is strictly
    ascending, so it has no duplicates, and it holds exactly the ids of
    the vector it was given. *)
Theorem sorted_ids_strict_and_complete (type_ids : IdVector) :
  StronglySorted Z.lt (fst (sort_type_ids type_ids)) /\
  NoDup (fst (sort_type_ids type_ids)) /\
  forall x, In x (fst (sort_type_ids type_ids)) <-> In x type_ids.
Proof.
  rewrite sort_type_ids_buckets. cbn [fst].
  destruct (sort_unique_spec type_ids) as [Hs Hin].
  split; [assumption|]. split; [now apply strictly_ascending_NoDup | assumption].
Qed.

(** X3: the result of [sort_type_ids] depends only on which ids the vector
    holds, not on their order or on how often each occurs. *)
Theorem sort_type_ids_depends_on_set (l l' : IdVector) :
  (forall x, In x l <-> In x l') ->
  sort_type_ids l = sort_type_ids l'.
Proof.
  exact (sort_type_ids_ext l l').
Qed.

(** X4: [sort_type_ids] run again on the vector it left gives the same
    vector and the same buckets. *)
Theorem sort_type_ids_idempotent (type_ids : IdVector) :
  sort_type_ids (fst (sort_type_ids type_ids)) = sort_type_ids type_ids.
Proof.
  apply sort_type_ids_ext. intro x.
  rewrite sort_type_ids_buckets. cbn [fst].
  apply (proj2 (sort_unique_spec type_ids)).
Qed.

End MoreBucketing.

Section EquipmentOrder.

Context {LC : LogConfig}.

Lemma hd_in (r : IdVector) : r <> [] -> In (hd 0 r) r.
Proof.
  destruct r; [congruence | intros _; now left].
Qed.

Lemma runs_equip_ascending (rs : list IdVector) :
  StronglySorted Z.lt (concat rs) ->
  (forall x y, In x (concat rs) -> In y (concat rs) -> x <= y ->
               get_equip_id x <= get_equip_id y) ->
  Forall (fun r => r <> []) rs ->
  Forall uniform rs ->
  breaks_at_changes rs ->
  Sorted Z.lt (map bucket_equip_id rs).
Proof.
  induction rs as [|r1 rs IH]; intros Hs Hmono Hne Hu Hb; [constructor|].
  inversion Hne as [|? ? Hr1 Hne']; subst.
  inversion Hu as [|? ? Hu1 Hu']; subst.
  cbn [map concat] in *.
  constructor.
  - apply IH; try assumption.
    + now apply StronglySorted_app_r in Hs.
    + intros x y Hx Hy. apply Hmono; apply in_or_app; now right.
    + destruct rs as [|r2 rs]; [exact I | apply Hb].
  - destruct rs as [|r2 rs]; [constructor|].
    cbn [map]. constructor. destruct Hb as [Hchange _].
    inversion Hne' as [|? ? Hr2 _]; subst.
    unfold bucket_equip_id.
    rewrite (Hu1 (hd 0 r1) (last r1 0) (hd_in r1 Hr1) (last_in r1 Hr1)).
    assert (Hlt : last r1 0 < hd 0 r2).
    { destruct (exists_last Hr1) as [l [z E]]. subst r1.
      destruct r2 as [|b r2]; [congruence|].
      rewrite last_last. cbn [hd concat] in *.
      rewrite <- app_assoc in Hs. apply StronglySorted_app_r in Hs.
      cbn [app] in Hs. inversion Hs as [|? ? _ Hz]; subst.
      now inversion Hz. }
    assert (Hle : get_equip_id (last r1 0) <= get_equip_id (hd 0 r2)).
    { apply Hmono.
      - apply in_or_app. left. now apply last_in.
      - apply in_or_app. right. cbn [concat]. apply in_or_app. left.
        now apply hd_in.
      - lia. }
    lia.
Qed.

(** X5: when the equipment id does not decrease as the requested ids
    grow, the buckets of [sort_type_ids] come in strictly ascending
    equipment id: every equipment id has one bucket, and so one
    [SET_MASK] command. *)
Theorem one_bucket_per_equipment_id (type_ids : IdVector) :
  (forall x y, In x type_ids -> In y type_ids -> x <= y ->
               get_equip_id x <= get_equip_id y) ->
  StronglySorted Z.lt (map bucket_equip_id (snd (sort_type_ids type_ids))) /\
  NoDup (map bucket_equip_id (snd (sort_type_ids type_ids))).
Proof.
  intro Hmono.
  assert (S : StronglySorted Z.lt
                (map bucket_equip_id (snd (sort_type_ids type_ids)))).
  { apply Sorted_StronglySorted; [intros x y z; lia|].
    pose proof (sort_type_ids_grouping type_ids) as G.
    destruct (sort_type_ids type_ids) as [v out]. cbn [snd].
    destruct G as [Ev [Ec [Hne [Hu Hb]]]].
    destruct (sort_unique_spec type_ids) as [Hs Hin].
    apply runs_equip_ascending; try assumption.
    - rewrite Ec, Ev. exact Hs.
    - rewrite Ec, Ev. intros x y Hx Hy.
      apply Hmono; now apply Hin. }
  split; [exact S | now apply strictly_ascending_NoDup].
Qed.

End EquipmentOrder.

(** ** More on the command path *)

Section MoreCommands.

Context {LC : LogConfig}.

Lemma write_all_inj (o : PyObj) (fs fs' : list bytes) :
  write_all o fs = write_all o fs' -> fs = fs'.
Proof.
  unfold write_all. intro H. injection H as H. now apply app_inv_head in H.
Qed.

Lemma do_write_write_all (o : PyObj) (f : bytes) :
  do_write o f = write_all o [f].
Proof.
  reflexivity.
Qed.

(** The outcome of a batch on an object whose [write] is there and
    returns. *)
Lemma send_all_outcome (cmds : list command) :
  forall o,
    has_write o = true ->
    write_ok o = true ->
    send_all o cmds
    = if forallb encodable cmds
      then Ok true (write_all o (map frame_of cmds))
      else Raise RuntimeError (write_all o (map frame_of (sendable_prefix cmds))).
Proof.
  induction cmds as [|c cmds IH]; intros o Hw Hok.
  - simpl. now rewrite write_all_nil.
  - cbn [send_all forallb sendable_prefix]. rewrite config_msg_cases, Hw, Hok.
    destruct (encodable c); cbn [bind andb].
    + rewrite IH by assumption.
      destruct (forallb encodable cmds); cbn [map];
        now rewrite write_all_do_write.
    + simpl. now rewrite write_all_nil.
Qed.

Lemma send_all_no_fault (cmds : list command) (o : PyObj) :
  has_write o = true -> write_ok o = true -> send_all o cmds <> Fault.
Proof.
  intros Hw Hok. rewrite (send_all_outcome cmds o Hw Hok).
  destruct (forallb encodable cmds); discriminate.
Qed.

Lemma send_all_raises_runtime (cmds : list command) :
  forall o e o', send_all o cmds = Raise e o' -> e = RuntimeError.
Proof.
  induction cmds as [|c cmds IH]; intros o e o' H; [discriminate|].
  cbn [send_all] in H. rewrite config_msg_cases in H.
  destruct (encodable c).
  - destruct (has_write o && write_ok o); [|discriminate].
    cbn [bind] in H. now apply IH in H.
  - now injection H as <- _.
Qed.

Lemma set_mask_ids_set_masks (vs : list IdVector) :
  set_mask_ids (set_masks vs) = vs.
Proof.
  induction vs as [|v vs IH]; [reflexivity|].
  unfold set_mask_ids, set_masks in *. cbn [map filter fst snd]. now f_equal.
Qed.

(** The shape of a batch: the two debug commands when the debug id was
    resolved, then one [SET_MASK] per bucket; the vector [ids] they are
    built from is the request less one occurrence of the debug id. *)
Lemma enable_commands_shape (type_ids : IdVector) :
  exists ids,
    (forall x, count_occ Z.eq_dec ids x
               = (count_occ Z.eq_dec type_ids x
                  - (if Z.eq_dec Modem_debug_message x then 1 else 0))%nat) /\
    enable_commands type_ids
    = (if in_dec Z.eq_dec Modem_debug_message type_ids
       then [(DEBUG_LTE_ML1, ids); (DEBUG_WCDMA_L1, ids)] else [])
      ++ set_masks (snd (sort_type_ids ids)).
Proof.
  unfold enable_commands.
  destruct (find_debug type_ids) as [k|] eqn:Hk.
  - exists (erase type_ids k). split.
    + intro x. rewrite (erase_find_debug type_ids k Hk x).
      destruct (Z.eq_dec Modem_debug_message x); lia.
    + destruct (in_dec Z.eq_dec Modem_debug_message type_ids) as [Hin|Hout].
      * reflexivity.
      * apply find_debug_None in Hout. congruence.
  - exists type_ids. apply find_debug_None in Hk. split.
    + intro x. destruct (Z.eq_dec Modem_debug_message x) as [<-|]; [|lia].
      apply (count_occ_not_In Z.eq_dec) in Hk. lia.
    + destruct (in_dec Z.eq_dec Modem_debug_message type_ids); [tauto|].
      reflexivity.
Qed.

Lemma set_mask_ids_shape (type_ids : IdVector) :
  exists ids,
    (forall x, count_occ Z.eq_dec ids x
               = (count_occ Z.eq_dec type_ids x
                  - (if Z.eq_dec Modem_debug_message x then 1 else 0))%nat) /\
    concat (set_mask_ids (enable_commands type_ids)) = unique (sort ids).
Proof.
  destruct (enable_commands_shape type_ids) as [ids [Hc E]].
  exists ids. split; [assumption|]. rewrite E.
  assert (S : set_mask_ids
                ((if in_dec Z.eq_dec Modem_debug_message type_ids
                  then [(DEBUG_LTE_ML1, ids); (DEBUG_WCDMA_L1, ids)] else [])
                 ++ set_masks (snd (sort_type_ids ids)))
              = snd (sort_type_ids ids)).
  { destruct (in_dec Z.eq_dec Modem_debug_message type_ids);
      [change (set_mask_ids ([(DEBUG_LTE_ML1, ids); (DEBUG_WCDMA_L1, ids)]
                             ++ set_masks (snd (sort_type_ids ids))))
         with (set_mask_ids (set_masks (snd (sort_type_ids ids))))|];
      apply set_mask_ids_set_masks. }
  rewrite S. pose proof (sort_type_ids_grouping ids) as G.
  destruct (sort_type_ids ids) as [v out]. cbn [snd].
  destruct G as [-> [-> _]]. reflexivity.
Qed.

(** X6: an id other than the debug id is carried by exactly one [SET_MASK]
    command of the batch, once, when it is among the resolved ids, and by
    none when it is not. *)
Theorem set_mask_carries_each_id_once (type_ids : IdVector) (x : Z) :
  x <> Modem_debug_message ->
  count_occ Z.eq_dec (concat (set_mask_ids (enable_commands type_ids))) x
  = if in_dec Z.eq_dec x type_ids then 1%nat else 0%nat.
Proof.
  intro Hx. destruct (set_mask_ids_shape type_ids) as [ids [Hc ->]].
  specialize (Hc x).
  destruct (Z.eq_dec Modem_debug_message x) as [E|_]; [congruence|].
  destruct (sort_unique_spec ids) as [Hs Hin].
  apply strictly_ascending_NoDup in Hs.
  rewrite (NoDup_count_occ Z.eq_dec) in Hs. specialize (Hs x).
  destruct (in_dec Z.eq_dec x type_ids) as [Hi|Hn].
  - apply (count_occ_In Z.eq_dec) in Hi.
    assert (In x (unique (sort ids)))
      by (apply Hin, (count_occ_In Z.eq_dec); lia).
    apply (count_occ_In Z.eq_dec) in H. lia.
  - apply (count_occ_not_In Z.eq_dec) in Hn.
    apply (count_occ_not_In Z.eq_dec). intro H. apply Hin in H.
    apply (count_occ_In Z.eq_dec) in H. lia.
Qed.

(** X7: the debug id is carried by a [SET_MASK] command of the batch
    exactly when it occurs at least twice among the resolved ids; and the
    same holds for the id vector of each of the two debug commands. *)
Theorem debug_id_survives_iff_repeated (type_ids : IdVector) :
  (In Modem_debug_message (concat (set_mask_ids (enable_commands type_ids)))
   <-> (2 <= count_occ Z.eq_dec type_ids Modem_debug_message)%nat) /\
  (forall op ids,
      In (op, ids) (enable_commands type_ids) -> op <> SET_MASK ->
      (In Modem_debug_message ids
       <-> (2 <= count_occ Z.eq_dec type_ids Modem_debug_message)%nat)).
Proof.
  split.
  - destruct (set_mask_ids_shape type_ids) as [ids [Hc ->]].
    specialize (Hc Modem_debug_message).
    destruct (Z.eq_dec Modem_debug_message Modem_debug_message); [|congruence].
    rewrite (proj2 (sort_unique_spec ids)), (count_occ_In Z.eq_dec). lia.
  - intros op ids Hin Hop.
    destruct (enable_commands_shape type_ids) as [ids' [Hc E]].
    rewrite E in Hin. apply in_app_or in Hin. destruct Hin as [Hin|Hin].
    + assert (ids = ids').
      { destruct (in_dec Z.eq_dec Modem_debug_message type_ids); [|destruct Hin].
        destruct Hin as [H|[H|[]]]; now injection H. }
      subst ids'. specialize (Hc Modem_debug_message).
      destruct (Z.eq_dec Modem_debug_message Modem_debug_message); [|congruence].
      rewrite (count_occ_In Z.eq_dec). lia.
    + unfold set_masks in Hin. apply in_map_iff in Hin.
      destruct Hin as [v [H _]]. injection H as <- _. congruence.
Qed.

End MoreCommands.

(** ** More on the entry points *)

Section MoreEntryPoints.

Context {LC : LogConfig}.

Lemma resolve_names_acc (items : list PyItem) :
  forall acc ids,
    resolve_names items acc = Some ids <->
    (forall name, In (PyString name) items -> catalog_ids name <> []) /\
    ids = acc ++ flat_map item_ids items.
Proof.
  induction items as [|[name|] items IH]; intros acc ids.
  - simpl. rewrite app_nil_r. split.
    + intro H. injection H as <-. split; [intros ? []| reflexivity].
    + intros [_ ->]. reflexivity.
  - cbn [resolve_names find_ids flat_map item_ids].
    destruct (catalog_ids name) as [|i l] eqn:E.
    + simpl. split; [discriminate|]. intros [H _].
      exfalso. apply (H name); [now left | assumption].
    + replace (Z.of_nat (length (i :: l)) =? 0) with false
        by (symmetry; apply Z.eqb_neq; simpl length; lia).
      rewrite IH, <- app_assoc. split; intros [H ->]; (split; [|reflexivity]).
      * intros n [Hn|Hn]; [injection Hn as <-; congruence | now apply H].
      * intros n Hn. apply H. now right.
  - cbn [resolve_names flat_map item_ids app]. rewrite IH.
    split; intros [H ->]; (split; [|reflexivity]).
    + intros n [Hn|Hn]; [discriminate | now apply H].
    + intros n Hn. apply H. now right.
Qed.

Lemma resolve_names_None (items : list PyItem) (acc : IdVector) :
  resolve_names items acc = None <->
  exists name, In (PyString name) items /\ catalog_ids name = [].
Proof.
  split.
  - revert acc. induction items as [|[name|] items IH]; intros acc H.
    + discriminate.
    + cbn [resolve_names find_ids] in H.
      destruct (catalog_ids name) as [|i l] eqn:E.
      * exists name. split; [now left | assumption].
      * replace (Z.of_nat (length (i :: l)) =? 0) with false in H
          by (symmetry; apply Z.eqb_neq; simpl length; lia).
        destruct (IH _ H) as [n [Hn Hc]]. exists n. split; [now right | assumption].
    + cbn [resolve_names] in H.
      destruct (IH _ H) as [n [Hn Hc]]. exists n. split; [now right | assumption].
  - intros [name [Hin Hc]]. now apply (resolve_names_unknown items name).
Qed.

(** X8: name resolution succeeds exactly when every string of the request
    has at least one id in the catalogue, and then the resolved vector is
    the ids of the strings put end to end in request order, repeats
    included. *)
Theorem resolved_ids_in_request_order (items : list PyItem) (ids : IdVector) :
  resolve_names items [] = Some ids <->
  (forall name, In (PyString name) items -> catalog_ids name <> []) /\
  ids = flat_map item_ids items.
Proof.
  exact (resolve_names_acc items [] ids).
Qed.

(** X9: on a port that has [read], [enable_logs] raises [ValueError]
    exactly when some string of the request has no id in the catalogue,
    and the port is then left as it was. *)
Theorem value_error_iff_unknown_name (port : PyObj) (items : list PyItem) :
  has_read port = true ->
  ((exists o, dm_collector_c_enable_logs port (PySeq items) = Raise ValueError o)
   <-> exists name, In (PyString name) items /\ catalog_ids name = []) /\
  (forall o, dm_collector_c_enable_logs port (PySeq items) = Raise ValueError o ->
             o = port).
Proof.
  intro Hr. rewrite (enable_logs_plan port items Hr).
  destruct (resolve_names items []) as [ids|] eqn:E.
  - assert (N : forall o,
               (' _ , o' <- send_all port (enable_commands ids) ;; Ok Py_True o')
               <> Raise ValueError o).
    { intros o H.
      destruct (send_all port (enable_commands ids)) as [a o'|e o'|] eqn:S;
        cbn [bind] in H; try discriminate.
      injection H as -> _. apply send_all_raises_runtime in S. discriminate. }
    split.
    + split.
      * intros [o H]. now apply N in H.
      * intro H. apply (resolve_names_None items []) in H. congruence.
    + intros o H. now apply N in H.
  - split.
    + split; [intros _; now apply (resolve_names_None items []) | intros _].
      now exists port.
    + intros o H. now injection H.
Qed.

(** X10: [enable_logs] and [generate_diag_cfg] raise [TypeError] exactly
    when the capability check fails or [type_names] is not a sequence, and
    the object is then left as it was. *)
Theorem type_error_iff_bad_argument (o : PyObj) (sequence : PyArg) (o' : PyObj) :
  (dm_collector_c_enable_logs o sequence = Raise TypeError o'
   <-> (has_read o = false \/ sequence = PyNotSeq) /\ o' = o) /\
  (dm_collector_c_generate_diag_cfg o sequence = Raise TypeError o'
   <-> (has_write o = false \/ sequence = PyNotSeq) /\ o' = o).
Proof.
  assert (G : forall p items e p',
             generate_log_config_msgs p items = Raise e p' -> e <> TypeError).
  { intros p items e p' H. rewrite generate_log_config_msgs_plan in H.
    destruct (resolve_names items []).
    - apply send_all_raises_runtime in H. now subst e.
    - now injection H as <- _. }
  split.
  - unfold dm_collector_c_enable_logs, check_serial_port.
    destruct (has_read o); cbn [negb].
    + destruct sequence as [items|].
      * split.
        -- intro H.
           destruct (generate_log_config_msgs o items) as [a p|e p|] eqn:S;
             cbn [bind] in H; try discriminate.
           injection H as -> _. now apply G in S.
        -- intros [[H|H] _]; discriminate.
      * split; [intro H; injection H as <-; tauto | now intros [_ ->]].
    + split; [intro H; injection H as <-; tauto | now intros [_ ->]].
  - unfold dm_collector_c_generate_diag_cfg, check_file.
    destruct (has_write o) eqn:Hw; cbn [negb].
    + destruct sequence as [items|].
      * split.
        -- intro H. rewrite config_msg_disable, Hw in H. cbn [andb] in H.
           destruct (encodable disable_command); cbn [bind] in H;
             [|discriminate].
           destruct (write_ok o); cbn [bind] in H; [|discriminate].
           destruct (generate_log_config_msgs
                       (do_write o (frame_of disable_command)) items)
             as [a p|e p|] eqn:S; cbn [bind] in H; try discriminate.
           injection H as -> _. now apply G in S.
        -- intros [[H|H] _]; discriminate.
      * split; [intro H; injection H as <-; tauto | now intros [_ ->]].
    + split; [intro H; injection H as <-; tauto | now intros [_ ->]].
Qed.


End MoreEntryPoints.

Section Outcomes.

Context {LC : LogConfig}.

Lemma enable_logs_closed (port : PyObj) (items : list PyItem) :
  has_read port = true ->
  has_write port = true ->
  write_ok port = true ->
  dm_collector_c_enable_logs port (PySeq items)
  = match resolve_names items [] with
    | None => Raise ValueError port
    | Some type_ids =>
        let cmds := enable_commands type_ids in
        if forallb encodable cmds
        then Ok Py_True (write_all port (map frame_of cmds))
        else Raise RuntimeError
                   (write_all port (map frame_of (sendable_prefix cmds)))
    end.
Proof.
  intros Hr Hw Hok. rewrite (enable_logs_plan port items Hr).
  destruct (resolve_names items []) as [ids|]; [|reflexivity].
  cbv zeta. rewrite (send_all_outcome (enable_commands ids) port Hw Hok).
  destruct (forallb encodable (enable_commands ids)); reflexivity.
Qed.

(** X12: the whole outcome of [enable_logs] on a port that has [read] and
    whose [write] is there and returns when called.  An unknown name
    gives [ValueError] with nothing written;
    otherwise the commands of the batch are sent in order, and the call
    returns [True] with one frame written per command when all of them
    encode, and raises [RuntimeError] with the frames of the commands
    before the first that does not encode when one does not. *)
Theorem enable_logs_outcome (port : PyObj) (items : list PyItem) :
  has_read port = true ->
  has_write port = true ->
  write_ok port = true ->
  dm_collector_c_enable_logs port (PySeq items)
  = match resolve_names items [] with
    | None => Raise ValueError port
    | Some type_ids =>
        let cmds := enable_commands type_ids in
        if forallb encodable cmds
        then Ok Py_True (write_all port (map frame_of cmds))
        else Raise RuntimeError
                   (write_all port (map frame_of (sendable_prefix cmds)))
    end.
Proof.
  exact (enable_logs_closed port items).
Qed.

Lemma generate_diag_cfg_closed (file : PyObj) (items : list PyItem) :
  has_write file = true ->
  write_ok file = true ->
  encodable disable_command = true ->
  dm_collector_c_generate_diag_cfg file (PySeq items)
  = match resolve_names items [] with
    | None => Raise ValueError (write_all file [frame_of disable_command])
    | Some type_ids =>
        let cmds := enable_commands type_ids in
        if forallb encodable cmds
        then Ok Py_True
                (write_all file (frame_of disable_command :: map frame_of cmds))
        else Raise RuntimeError
                   (write_all file (frame_of disable_command
                                      :: map frame_of (sendable_prefix cmds)))
    end.
Proof.
  intros Hw Hok Hd. rewrite (generate_diag_cfg_plan file items Hw Hok), Hd.
  destruct (resolve_names items []) as [ids|]; [|reflexivity].
  cbv zeta.
  rewrite (send_all_outcome (disable_command :: enable_commands ids)
                            file Hw Hok).
  cbn [forallb sendable_prefix map]. rewrite Hd. cbn [andb].
  destruct (forallb encodable (enable_commands ids)); reflexivity.
Qed.

(** X13: [generate_diag_cfg] is the [DISABLE] frame followed by what
    [enable_logs] does.  On an object with [read], with a [write] that
    is there and returns when called, and with a [DISABLE] command that
    encodes: when [enable_logs] returns a value
    having written some frames, [generate_diag_cfg] returns the same value
    having written the [DISABLE] frame and then those frames; when
    [enable_logs] raises, [generate_diag_cfg] raises the same exception,
    again with the [DISABLE] frame in front. *)
Theorem diag_cfg_is_disable_then_enable (o : PyObj) (items : list PyItem)
        (frames : list bytes) :
  has_read o = true ->
  has_write o = true ->
  write_ok o = true ->
  encodable disable_command = true ->
  (forall v,
      dm_collector_c_enable_logs o (PySeq items) = Ok v (write_all o frames) ->
      dm_collector_c_generate_diag_cfg o (PySeq items)
      = Ok v (write_all o (frame_of disable_command :: frames))) /\
  (forall e,
      dm_collector_c_enable_logs o (PySeq items) = Raise e (write_all o frames) ->
      dm_collector_c_generate_diag_cfg o (PySeq items)
      = Raise e (write_all o (frame_of disable_command :: frames))).
Proof.
  intros Hr Hw Hok Hd.
  rewrite (enable_logs_closed o items Hr Hw Hok).
  rewrite (generate_diag_cfg_closed o items Hw Hok Hd).
  destruct (resolve_names items []) as [ids|]; cbv zeta.
  - destruct (forallb encodable (enable_commands ids)); split; intros x H;
      try discriminate; injection H as <- H; apply app_inv_head in H;
      now subst frames.
  - split; intros x H; [discriminate|].
    injection H as <- H. rewrite <- (write_all_nil o) in H at 1.
    apply write_all_inj in H. now subst frames.
Qed.

(** X14: without the debug message, what the enable path does depends
    only on the set of resolved ids: two requests that resolve to the same
    ids, in whatever order and with whatever repeats, give the same
    outcome and the same frames. *)
Theorem request_order_is_irrelevant (o : PyObj) (items items' : list PyItem)
        (ids ids' : IdVector) :
  resolve_names items [] = Some ids ->
  resolve_names items' [] = Some ids' ->
  (forall x, In x ids <-> In x ids') ->
  ~ In Modem_debug_message ids ->
  generate_log_config_msgs o items = generate_log_config_msgs o items' /\
  dm_collector_c_enable_logs o (PySeq items)
  = dm_collector_c_enable_logs o (PySeq items') /\
  dm_collector_c_generate_diag_cfg o (PySeq items)
  = dm_collector_c_generate_diag_cfg o (PySeq items').
Proof.
  intros Hres Hres' Hset Hno.
  assert (G : forall p, generate_log_config_msgs p items
                        = generate_log_config_msgs p items').
  { intro p. rewrite !generate_log_config_msgs_plan, Hres, Hres'.
    unfold enable_commands.
    assert (Hno' : ~ In Modem_debug_message ids') by (now rewrite <- Hset).
    apply find_debug_None in Hno, Hno'. rewrite Hno, Hno'.
    now rewrite (sort_type_ids_ext ids ids' Hset). }
  split; [apply G|]. split.
  - unfold dm_collector_c_enable_logs. now rewrite G.
  - unfold dm_collector_c_generate_diag_cfg.
    destruct (negb (check_file o)); [reflexivity|].
    destruct (config_msg o DISABLE []); cbn [bind]; try reflexivity.
    now rewrite G.
Qed.

(** X15: a request without strings (the empty one among them) enables
    nothing and is no error: [enable_logs] returns [True] and calls
    [write] not once, even on a port that lacks it. *)
Theorem empty_request_enables_nothing (port : PyObj) (items : list PyItem) :
  has_read port = true ->
  forallb (fun item => negb (is_string item)) items = true ->
  dm_collector_c_enable_logs port (PySeq items) = Ok Py_True port.
Proof.
  intros Hr Hnone.
  assert (E : filter is_string items = []).
  { induction items as [|item items IH]; [reflexivity|].
    cbn [forallb] in Hnone. apply andb_prop in Hnone. destruct Hnone as [H1 H2].
    cbn [filter]. destruct (is_string item); [discriminate | now apply IH]. }
  rewrite (enable_logs_plan port items Hr), resolve_names_strings, E.
  reflexivity.
Qed.

(** X16: on a request without strings [generate_diag_cfg] passes to
    [write] exactly what [disable_logs] passes, and ends in the null
    dereference exactly when [disable_logs] does.  When the [DISABLE]
    command does not encode, nothing is written; when it encodes, its
    frame is the one thing written if the call of [write] returns, and
    both calls end in the null dereference if it fails. *)
Theorem diag_cfg_without_names_is_disable (o : PyObj) (items : list PyItem) :
  has_read o = true ->
  has_write o = true ->
  forallb (fun item => negb (is_string item)) items = true ->
  sent (dm_collector_c_generate_diag_cfg o (PySeq items))
  = sent (dm_collector_c_disable_logs o) /\
  sent (dm_collector_c_disable_logs o)
  = if encodable disable_command
    then if write_ok o
         then Some (written o ++ [frame_of disable_command])
         else None
    else Some (written o).
Proof.
  intros Hr Hw Hnone.
  assert (E : resolve_names items [] = Some []).
  { rewrite resolve_names_strings.
    replace (filter is_string items) with (@nil PyItem); [reflexivity|].
    symmetry. induction items as [|item items IH]; [reflexivity|].
    cbn [forallb] in Hnone. apply andb_prop in Hnone. destruct Hnone as [H1 H2].
    cbn [filter]. destruct (is_string item); [discriminate | now apply IH]. }
  assert (D : dm_collector_c_disable_logs o
              = if encodable disable_command
                then if write_ok o
                     then Ok Py_True (do_write o (frame_of disable_command))
                     else Fault
                else Ok Py_False o).
  { unfold dm_collector_c_disable_logs, check_serial_port, send_msg,
      encodable, frame_of, disable_command.
    rewrite Hr, Hw. cbn [negb fst snd andb].
    destruct (encode_log_config DISABLE []) as [[b|] len]; [|reflexivity].
    destruct (len =? 0); [reflexivity|].
    destruct (write_ok o); reflexivity. }
  assert (G : dm_collector_c_generate_diag_cfg o (PySeq items)
              = if encodable disable_command
                then if write_ok o
                     then Ok Py_True (do_write o (frame_of disable_command))
                     else Fault
                else Raise RuntimeError o).
  { unfold dm_collector_c_generate_diag_cfg, check_file.
    rewrite Hw. cbn [negb]. rewrite config_msg_disable, Hw. cbn [andb].
    destruct (encodable disable_command); [|reflexivity].
    destruct (write_ok o); [|reflexivity].
    cbn [bind]. rewrite generate_log_config_msgs_plan, E. reflexivity. }
  rewrite D, G.
  destruct (encodable disable_command); [destruct (write_ok o)|];
    split; reflexivity.
Qed.

End Outcomes.

(** ** More on the receive path *)

Lemma debug_header_bytes (frame_size : Z) :
  debug_header frame_size
  = [0; 0; (frame_size + 14) mod 256; 0; 0xeb; 0x1f; 0; 0; 0; 0; 0; 0; 0; 0].
Proof.
  reflexivity.
Qed.

Lemma debug_packet_length (frame : bytes) :
  length (debug_packet frame) = (14 + length frame)%nat.
Proof.
  reflexivity.
Qed.

Section MoreReceive.

Context {PS : PacketSource}.

(** X18: the length field of the header put in front of a debug frame
    equals the frame size plus fourteen exactly when the frame is shorter
    than 242 bytes. *)
Theorem debug_length_field_exact_iff_short (frame : bytes) :
  header_length_field (debug_packet frame) = Z.of_nat (length frame) + 14
  <-> Z.of_nat (length frame) < 242.
Proof.
  unfold debug_packet. rewrite debug_header_bytes.
  unfold header_length_field, uint16_le. cbn [nth app].
  pose proof (Z.mod_pos_bound (Z.of_nat (length frame) + 14) 256 ltac:(lia)) as B.
  split; intro H.
  - lia.
  - rewrite Z.mod_small by lia. lia.
Qed.

(** X19: every call takes one frame from the deframer, whatever the
    arguments and whatever becomes of the frame; and [include_timestamp]
    changes nothing but the wrapping: a decoded packet is paired with the
    time read before the deframer ran, [None] stays [None]. *)
Theorem timestamp_flag_only_wraps
        (arg_skip_decoding arg_include_timestamp : option Z) (w : World) :
  snd (dm_collector_c_receive_log_packet arg_skip_decoding
                                         arg_include_timestamp w)
  = snd (get_next_frame w) /\
  fst (dm_collector_c_receive_log_packet arg_skip_decoding
                                         arg_include_timestamp w)
  = match fst (dm_collector_c_receive_log_packet arg_skip_decoding None w) with
    | RDecoded decoded =>
        if flag_of arg_include_timestamp
        then RPair decoded (get_posix_timestamp w)
        else RDecoded decoded
    | other => other
    end.
Proof.
  unfold dm_collector_c_receive_log_packet. cbn [flag_of].
  destruct (get_next_frame w) as [[[success frame] crc_correct] w'].
  cbn [snd].
  destruct (success && crc_correct); [|split; reflexivity].
  destruct (is_log_packet frame (Z.of_nat (length frame))).
  - destruct (flag_of arg_include_timestamp); split; reflexivity.
  - destruct (is_debug_packet frame (Z.of_nat (length frame)));
      [destruct (flag_of arg_include_timestamp)|]; split; reflexivity.
Qed.

(** X20: the decoder is always told the true length of the buffer it is
    given.  For a frame of at least two bytes (and of a size that fits
    [size_t] with fourteen to spare), a log packet is decoded from the
    frame without its first two bytes and the number of bytes left, a
    debug packet from the header followed by the frame and the length of
    both; the log test comes first. *)
Theorem decoder_gets_buffer_and_length
        (arg_skip_decoding : option Z) (w w' : World) (frame : bytes) :
  get_next_frame w = (true, frame, true, w') ->
  (2 <= length frame)%nat ->
  Z.of_nat (length frame) + 14 < 2 ^ 64 ->
  let size := Z.of_nat (length frame) in
  let skip_decoding := flag_of arg_skip_decoding in
  let decode buf := decode_log_packet buf (Z.of_nat (length buf)) skip_decoding in
  dm_collector_c_receive_log_packet arg_skip_decoding None w
  = (if is_log_packet frame size then RDecoded (decode (skipn 2 frame))
     else if is_debug_packet frame size then RDecoded (decode (debug_packet frame))
     else RNone,
     w').
Proof.
  intros Hget Hlen Hfit size skip_decoding decode. subst size decode.
  unfold dm_collector_c_receive_log_packet. rewrite Hget.
  cbn [flag_of andb]. fold skip_decoding.
  assert (E2 : size_t_sub (Z.of_nat (length frame)) 2
               = Z.of_nat (length (skipn 2 frame))).
  { unfold size_t_sub. rewrite length_skipn, Z.mod_small; lia. }
  assert (E14 : size_t_add (Z.of_nat (length frame)) 14
                = Z.of_nat (length (debug_packet frame))).
  { unfold size_t_add. rewrite debug_packet_length.
    rewrite Z.mod_small; lia. }
  rewrite E2, E14.
  destruct (is_log_packet frame (Z.of_nat (length frame))); [reflexivity|].
  destruct (is_debug_packet frame (Z.of_nat (length frame))); reflexivity.
Qed.

End MoreReceive.

Section PortWithoutWrite.

Context {LC : LogConfig}.

(** X21: [enable_logs] on a port that has [read] but no [write], for a
    request that resolves.  With no command to send the call returns
    [True]; otherwise the first command decides: when it encodes, the
    call reaches the missing [write] and ends in undefined behaviour,
    when it does not, the call raises [RuntimeError].  Nothing is
    written in any case. *)
Theorem enable_logs_without_write (port : PyObj) (items : list PyItem)
        (type_ids : IdVector) :
  has_read port = true ->
  has_write port = false ->
  resolve_names items [] = Some type_ids ->
  dm_collector_c_enable_logs port (PySeq items)
  = match enable_commands type_ids with
    | [] => Ok Py_True port
    | c :: _ => if encodable c then Fault else Raise RuntimeError port
    end.
Proof.
  intros Hr Hw Hres. rewrite (enable_logs_plan port items Hr), Hres.
  destruct (enable_commands type_ids) as [|c cs]; [reflexivity|].
  cbn [send_all]. rewrite config_msg_cases, Hw.
  destruct (encodable c); reflexivity.
Qed.

End PortWithoutWrite.

(** ** Evaluations and instances *)

Local Open Scope string_scope.
Local Open Scope list_scope.
Local Open Scope Z_scope.

#[local] Existing Instance Sample.log_config.
#[local] Existing Instance Sample.packet_source.

(** C1: the request that names the debug message twice.  Both names
    resolve to the debug id; [erase] takes out the first occurrence only,
    so the vector that reaches [sort_type_ids] still holds the id and the
    one bucket, hence the one [SetMask] command, carries it, while the
    input less duplicates and debug id is empty. *)
Theorem duplicate_debug_id_is_bucketed :
  let items := [PyString "Modem_debug_message"; PyString "Modem_debug_message"] in
  resolve_names items [] = Some [0x1FEB; 0x1FEB] /\
  find_debug [0x1FEB; 0x1FEB] = Some 0%nat /\
  sort_type_ids (erase [0x1FEB; 0x1FEB] 0) = ([0x1FEB], [[0x1FEB]]) /\
  set_mask_ids (enable_commands [0x1FEB; 0x1FEB]) = [[Modem_debug_message]] /\
  filter (fun x => negb (x =? Modem_debug_message)) (unique (sort [0x1FEB; 0x1FEB]))
  = [].
Proof.
  repeat split.
Qed.

(** C2: [enable_logs] on the request that names the debug message twice.
    Three frames are written: the two debug commands, each still carrying
    the debug id, and a [SET_MASK] command that carries it as well. *)
Theorem duplicate_debug_name_enable_logs :
  dm_collector_c_enable_logs
    Sample.port
    (PySeq [PyString "Modem_debug_message"; PyString "Modem_debug_message"])
  = Ok Py_True
       (write_all Sample.port
                  [frame_of (DEBUG_LTE_ML1, [Modem_debug_message]);
                   frame_of (DEBUG_WCDMA_L1, [Modem_debug_message]);
                   frame_of (SET_MASK, [Modem_debug_message])]).
Proof.
  reflexivity.
Qed.

(** C3, as stated, fails on [generate_diag_cfg]: with a known name
    followed by an unknown one the call raises [ValueError], but the
    file has received the frame of the [DISABLE] command. *)
Lemma unknown_name_diag_cfg_has_written :
  exists file',
    dm_collector_c_generate_diag_cfg
      Sample.file
      (PySeq [PyString "LTE_RRC_OTA_Packet"; PyString "NotARealTypeName"])
    = Raise ValueError file' /\
    written file' = [frame_of disable_command] /\
    written file' <> written Sample.file.
Proof.
  eexists. split; [reflexivity|]. split; [reflexivity | discriminate].
Qed.

Lemma unknown_name_aborts_witness :
  dm_collector_c_enable_logs
    Sample.port
    (PySeq [PyString "LTE_RRC_OTA_Packet"; PyString "NotARealTypeName"])
  = Raise ValueError Sample.port /\
  dm_collector_c_generate_diag_cfg
    Sample.file
    (PySeq [PyString "LTE_RRC_OTA_Packet"; PyString "NotARealTypeName"])
  = Raise ValueError (do_write Sample.file (frame_of disable_command)).
Proof.
  apply (unknown_name_aborts
           Sample.port Sample.file
           [PyString "LTE_RRC_OTA_Packet"; PyString "NotARealTypeName"]
           "NotARealTypeName").
  - right. left. reflexivity.
  - reflexivity.
  - reflexivity.
  - reflexivity.
  - reflexivity.
  - reflexivity.
Defined.

(** C4: a debug frame of 242 bytes.  The frame size plus fourteen is
    256, and the length field of the header in front of it reads 0; the
    type id reads [0x1FEB].  The header is the one built for a frame of
    498 bytes, so no reading of its fourteen bytes gives both lengths. *)
Theorem debug_header_length_wraps :
  let frame := repeat 0x79 242 in
  Z.of_nat (length frame) + 14 = 256 /\
  header_length_field (debug_packet frame) = 0 /\
  header_type_id (debug_packet frame) = 0x1FEB /\
  debug_header 242 = debug_header 498 /\
  fst (dm_collector_c_receive_log_packet None None ((0, 0), [(frame, true)]))
  = RDecoded (debug_packet frame, 256, false).
Proof.
  repeat split.
Qed.

Lemma receive_drops_undecodable_witness :
  dm_collector_c_receive_log_packet
    None (Some 1) ((100, 5), [([0x79; 1; 2], false); ([0x10; 0; 2; 3], true)])
  = (RNone, ((101, 5), [([0x10; 0; 2; 3], true)])).
Proof.
  apply (receive_drops_undecodable
           (PS := Sample.packet_source) None (Some 1)
           ((100, 5), [([0x79; 1; 2], false); ([0x10; 0; 2; 3], true)])
           ((101, 5), [([0x10; 0; 2; 3], true)])
           true false [0x79; 1; 2]).
  - reflexivity.
  - left. reflexivity.
Defined.

(** C6, as stated, fails on [disable_logs]: with an encoder that returns
    the null buffer the call raises nothing, it returns [False]. *)
Lemma disable_logs_encode_failure_returns_false :
  encodable (LC := Sample.null_config) disable_command = false /\
  dm_collector_c_disable_logs (LC := Sample.null_config) Sample.port
  = Ok Py_False Sample.port /\
  forall e o,
    dm_collector_c_disable_logs (LC := Sample.null_config) Sample.port
    <> Raise e o.
Proof.
  repeat split. discriminate.
Qed.

Lemma encode_failure_aborts_batch_witness :
  let items := [PyString "Modem_debug_message"; PyString "LTE_RRC_OTA_Packet";
                PyString "WCDMA_CELL_ID"] in
  let debug := [(DEBUG_LTE_ML1, [0xB0C0; 0x4127]);
                (DEBUG_WCDMA_L1, [0xB0C0; 0x4127])] in
  dm_collector_c_enable_logs (LC := Sample.picky_config) Sample.port (PySeq items)
  = Raise RuntimeError
          (write_all Sample.port
                     (map (frame_of (LC := Sample.picky_config)) debug)) /\
  dm_collector_c_generate_diag_cfg (LC := Sample.picky_config) Sample.file
                                   (PySeq items)
  = Raise RuntimeError
          (write_all Sample.file
                     (map (frame_of (LC := Sample.picky_config))
                          (disable_command :: debug))) /\
  dm_collector_c_disable_logs (LC := Sample.null_config) Sample.closed_port
  = Ok Py_False Sample.closed_port /\
  config_msg (LC := Sample.picky_config) Sample.read_only_port
             SET_MASK [0x4127]
  = Raise RuntimeError Sample.read_only_port.
Proof.
  intros items debug.
  pose (c := (SET_MASK, [0x4127]) : command).
  pose (post := [(SET_MASK, [0xB0C0])] : list command).
  split; [|split; [|split]].
  - apply (proj1 (encode_failure_aborts_batch
                    (LC := Sample.picky_config) Sample.port Sample.file items
                    [0x1FEB; 0xB0C0; 0x4127] debug post c
                    eq_refl eq_refl eq_refl eq_refl eq_refl
                    eq_refl eq_refl eq_refl)).
    reflexivity.
  - apply (proj1 (proj2 (encode_failure_aborts_batch
                    (LC := Sample.picky_config) Sample.port Sample.file items
                    [0x1FEB; 0xB0C0; 0x4127] (disable_command :: debug) post c
                    eq_refl eq_refl eq_refl eq_refl eq_refl
                    eq_refl eq_refl eq_refl))).
    reflexivity.
  - apply (proj1 (proj2 (proj2 (encode_failure_aborts_batch
                    (LC := Sample.null_config) Sample.port Sample.file []
                    [] [] [] disable_command
                    eq_refl eq_refl eq_refl eq_refl eq_refl
                    eq_refl eq_refl eq_refl)))).
    + reflexivity.
    + reflexivity.
  - exact (proj1 (proj2 (proj2 (proj2 (encode_failure_aborts_batch
                    (LC := Sample.picky_config) Sample.port Sample.file items
                    [0x1FEB; 0xB0C0; 0x4127] debug post c
                    eq_refl eq_refl eq_refl eq_refl eq_refl
                    eq_refl eq_refl eq_refl)))
                  Sample.read_only_port [])).
Defined.

Lemma diag_cfg_starts_with_disable_witness :
  exists items rest,
    PySeq [PyString "LTE_RRC_OTA_Packet"; PyString "WCDMA_CELL_ID"] = PySeq items /\
    encodable disable_command = true /\
    [frame_of disable_command; frame_of (SET_MASK, [0x4127]);
     frame_of (SET_MASK, [0xB0C0])]
    = written Sample.file ++ frame_of disable_command :: rest /\
    generate_log_config_msgs
      (do_write Sample.file (frame_of disable_command)) items
    = Ok true
         (write_all Sample.file
                    [frame_of disable_command; frame_of (SET_MASK, [0x4127]);
                     frame_of (SET_MASK, [0xB0C0])]).
Proof.
  apply (diag_cfg_starts_with_disable
           Sample.file
           (PySeq [PyString "LTE_RRC_OTA_Packet"; PyString "WCDMA_CELL_ID"])
           (write_all Sample.file
                      [frame_of disable_command; frame_of (SET_MASK, [0x4127]);
                       frame_of (SET_MASK, [0xB0C0])])).
  reflexivity.
Defined.

(** C8: a port that has [read] but no [write].  [check_serial_port]
    accepts it, so neither [disable_logs] nor [enable_logs] raises
    [TypeError]: both go on to call the missing [write] and release the
    null result.  With nothing to send, [enable_logs] returns [True]. *)
Theorem port_without_write_is_accepted :
  check_serial_port Sample.read_only_port = true /\
  check_file Sample.read_only_port = false /\
  dm_collector_c_disable_logs Sample.read_only_port = Fault /\
  dm_collector_c_enable_logs Sample.read_only_port
                             (PySeq [PyString "LTE_RRC_OTA_Packet"]) = Fault /\
  dm_collector_c_enable_logs Sample.read_only_port (PySeq [])
  = Ok Py_True Sample.read_only_port /\
  dm_collector_c_generate_diag_cfg Sample.read_only_port
                                   (PySeq [PyString "LTE_RRC_OTA_Packet"])
  = Raise TypeError Sample.read_only_port.
Proof.
  repeat split.
Qed.

Lemma receive_timestamp_pairs_witness :
  let w := ((100, 5), [([0x79; 1; 2], true)]) in
  exists decoded,
    dm_collector_c_receive_log_packet None (Some 1) w
    = (RPair decoded 100000005, ((101, 5), [])).
Proof.
  exact (proj1 (receive_timestamp_pairs
                  (PS := Sample.packet_source) None (Some 1)
                  ((100, 5), [([0x79; 1; 2], true)]) ((101, 5), [])
                  true true [0x79; 1; 2] eq_refl eq_refl)
               eq_refl).
Defined.

(** ** Instances of the further properties *)

Lemma sort_type_ids_depends_on_set_witness :
  sort_type_ids [0xB0C0; 0x4127; 0xB0C0] = sort_type_ids [0x4127; 0xB0C0].
Proof.
  apply (sort_type_ids_depends_on_set [0xB0C0; 0x4127; 0xB0C0] [0x4127; 0xB0C0]).
  intro x. simpl. tauto.
Defined.

Lemma one_bucket_per_equipment_id_witness :
  StronglySorted
    Z.lt (map bucket_equip_id
              (snd (sort_type_ids [0xB0EE; 0x4127; 0xB0C0; 0x1FEB]))) /\
  NoDup (map bucket_equip_id
             (snd (sort_type_ids [0xB0EE; 0x4127; 0xB0C0; 0x1FEB]))).
Proof.
  apply (one_bucket_per_equipment_id [0xB0EE; 0x4127; 0xB0C0; 0x1FEB]).
  intros x y Hx Hy Hle. simpl in Hx, Hy.
  repeat (destruct Hx as [<-|Hx]); try contradiction;
    repeat (destruct Hy as [<-|Hy]); try contradiction;
    first [ exfalso; lia | vm_compute; discriminate ].
Defined.

Lemma set_mask_carries_each_id_once_witness :
  count_occ Z.eq_dec
            (concat (set_mask_ids (enable_commands [0x1FEB; 0xB0C0; 0xB0C0])))
            0xB0C0
  = 1%nat.
Proof.
  apply (set_mask_carries_each_id_once [0x1FEB; 0xB0C0; 0xB0C0] 0xB0C0).
  discriminate.
Defined.

Lemma debug_id_survives_iff_repeated_witness :
  let type_ids := [0x1FEB; 0xB0C0; 0x1FEB] in
  In Modem_debug_message [0xB0C0; 0x1FEB]
  <-> (2 <= count_occ Z.eq_dec type_ids Modem_debug_message)%nat.
Proof.
  apply (proj2 (debug_id_survives_iff_repeated [0x1FEB; 0xB0C0; 0x1FEB])
               DEBUG_LTE_ML1 [0xB0C0; 0x1FEB]).
  - left. reflexivity.
  - discriminate.
Defined.

Lemma value_error_iff_unknown_name_witness :
  ((exists o,
       dm_collector_c_enable_logs
         Sample.port (PySeq [PyString "WCDMA_CELL_ID"; PyString "Unknown"])
       = Raise ValueError o)
   <-> exists name,
        In (PyString name) [PyString "WCDMA_CELL_ID"; PyString "Unknown"] /\
        catalog_ids name = []) /\
  (forall o,
      dm_collector_c_enable_logs
        Sample.port (PySeq [PyString "WCDMA_CELL_ID"; PyString "Unknown"])
      = Raise ValueError o ->
      o = Sample.port).
Proof.
  apply (value_error_iff_unknown_name
           Sample.port [PyString "WCDMA_CELL_ID"; PyString "Unknown"]).
  reflexivity.
Defined.


Lemma enable_logs_outcome_witness :
  dm_collector_c_enable_logs
    Sample.port
    (PySeq [PyString "LTE_RRC_OTA_Packet"; PyString "Modem_debug_message";
            PyString "WCDMA_CELL_ID"])
  = Ok Py_True
       (write_all Sample.port
                  [frame_of (DEBUG_LTE_ML1, [0xB0C0; 0x4127]);
                   frame_of (DEBUG_WCDMA_L1, [0xB0C0; 0x4127]);
                   frame_of (SET_MASK, [0x4127]);
                   frame_of (SET_MASK, [0xB0C0])]).
Proof.
  exact (enable_logs_outcome
           Sample.port
           [PyString "LTE_RRC_OTA_Packet"; PyString "Modem_debug_message";
            PyString "WCDMA_CELL_ID"]
           eq_refl eq_refl eq_refl).
Defined.

Lemma diag_cfg_is_disable_then_enable_witness :
  dm_collector_c_generate_diag_cfg
    Sample.port (PySeq [PyString "LTE_RRC_OTA_Packet"; PyString "WCDMA_CELL_ID"])
  = Ok Py_True
       (write_all Sample.port
                  [frame_of disable_command; frame_of (SET_MASK, [0x4127]);
                   frame_of (SET_MASK, [0xB0C0])]).
Proof.
  apply (proj1 (diag_cfg_is_disable_then_enable
                  (LC := Sample.log_config) Sample.port
                  [PyString "LTE_RRC_OTA_Packet"; PyString "WCDMA_CELL_ID"]
                  [frame_of (SET_MASK, [0x4127]); frame_of (SET_MASK, [0xB0C0])]
                  eq_refl eq_refl eq_refl eq_refl)).
  reflexivity.
Defined.

Lemma request_order_is_irrelevant_witness :
  let items := [PyString "LTE_RRC_OTA_Packet"; PyString "WCDMA_CELL_ID";
                PyString "LTE_RRC_OTA_Packet"] in
  let items' := [PyString "WCDMA_CELL_ID"; PyString "LTE_RRC_OTA_Packet"] in
  generate_log_config_msgs Sample.port items
  = generate_log_config_msgs Sample.port items' /\
  dm_collector_c_enable_logs Sample.port (PySeq items)
  = dm_collector_c_enable_logs Sample.port (PySeq items') /\
  dm_collector_c_generate_diag_cfg Sample.port (PySeq items)
  = dm_collector_c_generate_diag_cfg Sample.port (PySeq items').
Proof.
  apply (request_order_is_irrelevant
           Sample.port
           [PyString "LTE_RRC_OTA_Packet"; PyString "WCDMA_CELL_ID";
            PyString "LTE_RRC_OTA_Packet"]
           [PyString "WCDMA_CELL_ID"; PyString "LTE_RRC_OTA_Packet"]
           [0xB0C0; 0x4127; 0xB0C0] [0x4127; 0xB0C0]).
  - reflexivity.
  - reflexivity.
  - intro x. simpl. tauto.
  - simpl. intros [H|[H|[H|[]]]]; discriminate.
Defined.

Lemma empty_request_enables_nothing_witness :
  dm_collector_c_enable_logs Sample.read_only_port (PySeq [PyOther; PyOther])
  = Ok Py_True Sample.read_only_port.
Proof.
  apply (empty_request_enables_nothing Sample.read_only_port [PyOther; PyOther]).
  - reflexivity.
  - reflexivity.
Defined.

Lemma diag_cfg_without_names_is_disable_witness :
  (sent (dm_collector_c_generate_diag_cfg Sample.port (PySeq [PyOther]))
   = sent (dm_collector_c_disable_logs Sample.port) /\
   sent (dm_collector_c_disable_logs Sample.port)
   = Some [frame_of disable_command]) /\
  (sent (dm_collector_c_generate_diag_cfg Sample.closed_port (PySeq [PyOther]))
   = sent (dm_collector_c_disable_logs Sample.closed_port) /\
   sent (dm_collector_c_disable_logs Sample.closed_port) = None).
Proof.
  split.
  - exact (diag_cfg_without_names_is_disable
             (LC := Sample.log_config) Sample.port [PyOther]
             eq_refl eq_refl eq_refl).
  - exact (diag_cfg_without_names_is_disable
             (LC := Sample.log_config) Sample.closed_port [PyOther]
             eq_refl eq_refl eq_refl).
Defined.

Lemma decoder_gets_buffer_and_length_witness :
  dm_collector_c_receive_log_packet
    (Some 1) None ((7, 0), [([0x10; 0; 0xC0; 0xB0; 9], true)])
  = (RDecoded ([0xC0; 0xB0; 9], 3, true), ((8, 0), [])).
Proof.
  apply (decoder_gets_buffer_and_length
           (PS := Sample.packet_source) (Some 1)
           ((7, 0), [([0x10; 0; 0xC0; 0xB0; 9], true)]) ((8, 0), [])
           [0x10; 0; 0xC0; 0xB0; 9]).
  - reflexivity.
  - simpl. lia.
  - simpl. lia.
Defined.

Lemma enable_logs_without_write_witness :
  dm_collector_c_enable_logs
    Sample.read_only_port (PySeq [PyString "WCDMA_CELL_ID"])
  = Fault.
Proof.
  exact (enable_logs_without_write
           (LC := Sample.log_config) Sample.read_only_port
           [PyString "WCDMA_CELL_ID"] [0x4127] eq_refl eq_refl eq_refl).
Defined.
